(** * Vizier's tuned Gaussian-process model coroutine

    A shallow embedding of [vizier/_src/jax/models/tuned_gp_models.py].

    The Python generator [VizierGaussianProcess.__call__] yields one
    [sp.ModelParameter] at a time, is resumed with the value a driver sends
    back, and finally returns a distribution.  It is embedded as a term of a
    resumption monad ([Gen.t]); a driver is a function from the declarations
    seen so far and the pending declaration to the value it sends.

    Numbers: float64 literals and their arithmetic ([1e-3 - eps], ...) are
    embedded as exact rationals ([Q]); rounding is not modelled.  The arrays
    a driver sends are kept abstract ([Array]) and only flow symbolically
    into the kernel that is built.

    Two further modules embed [pythia/suggest_default.py] (the decorator that
    seeds an empty study with the default) and
    [algorithms/testing/test_runners.py] (the suggest-update loop with random
    metrics), by explicit state passing over their collaborators. *)

From Stdlib Require Import Reals Lra Lqa Qreals.
From Stdlib Require Import List String ZArith QArith Lia Bool.
Import ListNotations.

Open Scope string_scope.
Open Scope list_scope.

Set Implicit Arguments.

(** ** Generators: [yield], [send], [return], [yield from] *)

Module Gen.

(** A suspended generator with yield type [Y], send type [S] and return
    type [R]: it has either returned, or it has yielded [y] and waits for
    the value to resume with. *)
Inductive t (Y S R : Type) : Type :=
| Return (r : R)
| Yield (y : Y) (k : S -> t Y S R).

Arguments Return {Y S R} r.
Arguments Yield {Y S R} y k.

(** [yield from g], then continue with [g]'s return value. *)
Fixpoint bind {Y S A B} (g : t Y S A) (f : A -> t Y S B) : t Y S B :=
  match g with
  | Return a => f a
  | Yield y k => Yield y (fun s => bind (k s) f)
  end.

(** A driver decides the value to send from the declarations emitted so far
    (oldest first) and the one that is pending. *)
Definition driver (Y S : Type) : Type := list Y -> Y -> S.

(** The driver as seen by the rest of a run after [y] was emitted. *)
Definition after {Y S} (y : Y) (d : driver Y S) : driver Y S :=
  fun h => d (y :: h).

(** The driver as seen after the declarations [ys] were emitted. *)
Definition after_all {Y S} (ys : list Y) (d : driver Y S) : driver Y S :=
  fun h => d (ys ++ h).

(** [next(gen)] followed by [gen.send(v)] until [StopIteration]: the
    declarations emitted, in order, and the returned value. *)
Fixpoint run {Y S R} (d : driver Y S) (g : t Y S R) : list Y * R :=
  match g with
  | Return r => ([], r)
  | Yield y k =>
      let (ys, r) := run (after y d) (k (d [] y)) in (y :: ys, r)
  end.

Definition emitted {Y S R} (d : driver Y S) (g : t Y S R) : list Y :=
  fst (run d g).

Definition result {Y S R} (d : driver Y S) (g : t Y S R) : R :=
  snd (run d g).

End Gen.

Declare Scope gen_scope.
Delimit Scope gen_scope with gen.

Notation "x <- 'yield' p ;; k" := (Gen.Yield p (fun x => k))
  (at level 100, p at next level, right associativity) : gen_scope.
Notation "x <- 'yield_from' g ;; k" := (Gen.bind g (fun x => k))
  (at level 100, g at next level, right associativity) : gen_scope.
Notation "' pat <- 'yield_from' g ;; k" := (Gen.bind g (fun pat => k))
  (at level 100, pat pattern, g at next level, right associativity) : gen_scope.

(** ** Data model *)

(** [types.ContinuousAndCategorical[T]] and
    [tfpke.ContinuousAndCategoricalValues]: a pair of a continuous and a
    categorical component. *)
Record ContinuousAndCategorical (A B : Type) : Type :=
  { continuous : A; categorical : B }.

(** A two-dimensional array with its [shape]. *)
Record ndarray (A : Type) : Type :=
  { shape : nat * nat; rows : list (list A) }.

(** [types.PaddedArray]: the padded values and the per-axis is-missing masks;
    [is_missing[1]] is the mask over the feature dimensions. *)
Record PaddedArray (A : Type) : Type :=
  { padded_array : ndarray A; is_missing : list bool * list bool }.

(** [types.ModelInput]: continuous features are floats, categorical features
    are integer codes. *)
Definition ModelInput : Type :=
  ContinuousAndCategorical (PaddedArray Q) (PaddedArray Z).

(** [types.ModelData]. *)
Record ModelData : Type :=
  { features : ModelInput; labels : PaddedArray Q }.

(** A float64 scalar ([np.float64(...)], a Python float) or a float64
    vector ([np.ones(n) * c]). *)
Inductive Bound : Type :=
| Scalar (q : Q)
| Vector (v : list Q).

(** [tfb.SoftClip(low, high, hinge_softness)]. *)
Record SoftClip : Type :=
  { low : Bound; high : Bound; hinge_softness : Q }.

(** [sp.Constraint(bounds, bijector)]. *)
Record Constraint : Type :=
  { bounds : Bound * Bound; bijector : SoftClip }.

(** The initialisers the model uses: [_log_uniform_init(low, high, shape)]
    and [jax.random.normal] with a [shape] (the empty shape by default). *)
Inductive InitFn : Type :=
| _log_uniform_init (lo hi : Bound) (shp : list nat)
| random_normal (shp : list Z).

(** The regularisers the model attaches, as the lambdas are written:
    [w * log(x / c) ** 2], [sum(w * log(x / c) ** 2)], [w * x**2] and
    [w * sum(x**2)]. *)
Inductive Regularizer : Type :=
| log_quadratic (w c : Q)
| sum_log_quadratic (w c : Q)
| quadratic (w : Q)
| sum_quadratic (w : Q).

(** [sp.ModelParameter]. *)
Record ModelParameter : Type :=
  { init_fn : InitFn;
    constraint : option Constraint;
    regularizer : Regularizer;
    name : string }.

(** Modelled from the spec: the enumeration [MultiTaskType] is declared in
    [multitask_tuned_gp_models], which is not among the sources; the spec
    gives it as a closed enumeration of [INDEPENDENT] and a family of
    separable variants. *)
Inductive MultiTaskType : Type :=
| INDEPENDENT
| SEPARABLE (variant : nat).

Definition MultiTaskType_eqb (a b : MultiTaskType) : bool :=
  match a, b with
  | INDEPENDENT, INDEPENDENT => true
  | SEPARABLE v, SEPARABLE w => Nat.eqb v w
  | _, _ => false
  end.

(** The fields of the [VizierGaussianProcess] dataclass. *)
Record VizierGaussianProcess : Type :=
  { _dim : ContinuousAndCategorical nat nat;
    _num_metrics : Z;
    _use_retrying_cholesky : bool;
    _boundary_epsilon : Q;
    _linear_coef : option Q;
    _multitask_type : MultiTaskType }.

(** [cholesky_fn]: [lambda matrix: retrying_cholesky(matrix)[0]] with
    [retrying_cholesky] partially applied to [jitter] and [max_iters]. *)
Record CholeskyFn : Type :=
  { jitter : Q; max_iters : Z }.

(** The same configuration with another multi-task type. *)
Definition with_multitask_type (self : VizierGaussianProcess)
    (t : MultiTaskType) : VizierGaussianProcess :=
  {| _dim := _dim self;
     _num_metrics := _num_metrics self;
     _use_retrying_cholesky := _use_retrying_cholesky self;
     _boundary_epsilon := _boundary_epsilon self;
     _linear_coef := _linear_coef self;
     _multitask_type := t |}.

(** ** Construction *)

Inductive Exception : Type :=
| ValueError (msg : string).

(** [VizierGaussianProcess.__attrs_post_init__]; the message is a plain
    string literal in the source, so the braces are kept as they are. *)
Definition __attrs_post_init__ (self : VizierGaussianProcess)
    : Exception + unit :=
  if (_num_metrics self <? 1)%Z then
    inl (ValueError
           "Number of metrics must be at least 1, got: {self._num_metrics}")
  else inr tt.

(** The methods the class body defines that take [self] alone, by name
    ([build_model] is a classmethod and [__call__] takes [inputs]). *)
Definition class_methods
    : list (string * (VizierGaussianProcess -> Exception + unit)) :=
  [("__attrs_post_init__", __attrs_post_init__)].

Definition getattr (attr : string)
    : option (VizierGaussianProcess -> Exception + unit) :=
  option_map snd
    (find (fun m => String.eqb (fst m) attr) class_methods).

(** The class is decorated with [struct.dataclass] (flax), which builds it
    with Python's [dataclasses.dataclass]: the generated [__init__] stores the
    fields and then calls [__post_init__] when the class has a method of
    that name.  [self] is the record of the fields passed. *)
Definition __init__ (self : VizierGaussianProcess)
    : Exception + VizierGaussianProcess :=
  match getattr "__post_init__" with
  | Some post_init =>
      match post_init self with
      | inl e => inl e
      | inr _ => inr self
      end
  | None => inr self
  end.

(** [sp.StochasticProcessModel(coroutine)]. *)
Record StochasticProcessModel : Type :=
  { coroutine : VizierGaussianProcess }.

(** [VizierGaussianProcess.build_model]; [_boundary_epsilon] takes its
    default [1e-12]. *)
Definition build_model (data : ModelData) (use_retrying_cholesky : bool)
    (linear_coef : option Q) (multitask_type : MultiTaskType)
    : Exception + StochasticProcessModel :=
  match
    __init__
      {| _dim :=
           {| continuous :=
                snd (shape (padded_array (continuous (features data))));
              categorical :=
                snd (shape (padded_array (categorical (features data)))) |};
         _num_metrics := Z.of_nat (snd (shape (padded_array (labels data))));
         _use_retrying_cholesky := use_retrying_cholesky;
         _boundary_epsilon := 1e-12;
         _linear_coef := linear_coef;
         _multitask_type := multitask_type |}
  with
  | inl e => inl e
  | inr gp_coroutine => inr {| coroutine := gp_coroutine |}
  end.

(** [np.ones(n, dtype=np.float64)] and the broadcast arithmetic of a vector
    with a scalar. *)
Definition np_ones (n : nat) : list Q := repeat 1 n.
Definition vscale (v : list Q) (c : Q) : list Q := map (fun x => x * c) v.
Definition vshift (v : list Q) (c : Q) : list Q := map (fun x => x + c) v.

(** [tfb.SoftClip( *bounds, hinge_softness=h)]. *)
Definition soft_clip (b : Bound * Bound) (h : Q) : SoftClip :=
  {| low := fst b; high := snd b; hinge_softness := h |}.

(** * [vizier/_src/pythia/suggest_default.py] *)

Module suggest_default.

Section Defs.

(** The search space, the parameter dictionary, the metadata of a decision,
    the policy object and the errors a policy raises: types of [pyvizier] and
    [pythia.policy], which are not among the sources. *)
Variables SearchSpace ParameterDict MetadataDelta Policy Error : Type.

(** [pi.get_default_parameters]. *)
Variable get_default_parameters : SearchSpace -> ParameterDict.

(** The metadata of a [SuggestDecision] built from suggestions alone. *)
Variable no_metadata : MetadataDelta.

Record ProblemStatement : Type := { search_space : SearchSpace }.

Record StudyDescriptor : Type :=
  { config : ProblemStatement; guid : string; max_trial_id : Z }.

(** [SuggestRequest]; [request.max_trial_id] and [request.study_config] read
    the study descriptor. *)
Record SuggestRequest : Type :=
  { _study_descriptor : StudyDescriptor; count : Z }.

Record TrialSuggestion : Type := { parameters : ParameterDict }.

Record SuggestDecision : Type :=
  { suggestions : list TrialSuggestion; metadata : MetadataDelta }.

(** [attrs.evolve(request, count=n)]. *)
Definition evolve_count (request : SuggestRequest) (n : Z) : SuggestRequest :=
  {| _study_descriptor := _study_descriptor request; count := n |}.

(** A suggest function takes the policy and the request; it leaves the policy
    in a new state and returns a decision or raises. *)
Definition SuggestFn : Type :=
  Policy -> SuggestRequest -> Policy * (Error + SuggestDecision).

(** The [wrapper_fn] that [seed_with_default] builds around [suggest_fn]. *)
Definition wrapper_fn (suggest_fn : SuggestFn) : SuggestFn :=
  fun self request =>
    if (max_trial_id (_study_descriptor request) >? 0)%Z then
      suggest_fn self request
    else
      let default_parameters :=
        get_default_parameters
          (search_space (config (_study_descriptor request))) in
      let decision :=
        {| suggestions := [{| parameters := default_parameters |}];
           metadata := no_metadata |} in
      if (count request >? 1)%Z then
        match
          suggest_fn self (evolve_count request (count request - 1))
        with
        | (self, inr more_suggestions) =>
            (self,
             inr {| suggestions :=
                      suggestions decision ++ suggestions more_suggestions;
                    metadata := metadata more_suggestions |})
        | (self, inl e) => (self, inl e)
        end
      else (self, inr decision).

(** What is decorated: a plain function of the policy and the request, or a
    method bound to its policy ([__func__] and [__self__]). *)
Inductive Callable : Type :=
| unbound_function (f : SuggestFn)
| bound_method (func : SuggestFn) (self : Policy).

(** [seed_with_default]: a bound method is unbound, wrapped and bound
    again. *)
Definition seed_with_default (suggest_fn : Callable) : Callable :=
  match suggest_fn with
  | bound_method func self => bound_method (wrapper_fn func) self
  | unbound_function f => unbound_function (wrapper_fn f)
  end.

End Defs.

(** The policy of the test: it insists on a count of two and on the study
    descriptor of the test, and suggests 999 and 1000 for [x]. *)
Definition empty_study_descriptor : StudyDescriptor unit :=
  {| config := {| search_space := tt |}; guid := "1"; max_trial_id := 0 |}.

Definition StudyDescriptor_eqb (a b : StudyDescriptor unit) : bool :=
  String.eqb (guid a) (guid b) && (max_trial_id a =? max_trial_id b)%Z.

Definition fake_suggest : SuggestFn unit Z unit unit string :=
  fun self request =>
    if negb (count request =? 2)%Z then (self, inl "count must be 2")
    else if negb (StudyDescriptor_eqb (_study_descriptor request)
                    empty_study_descriptor)
    then (self, inl "study_descriptor must match request")
    else
      (self,
       inr {| suggestions :=
                [{| parameters := 999%Z |}; {| parameters := 1000%Z |}];
              metadata := tt |}).

(** The default of the search space of the test is taken to be 500. *)
Definition fake_default (space : unit) : Z := 500%Z.

End suggest_default.

(** * [vizier/_src/algorithms/testing/test_runners.py] *)

Module test_runners.

(** A dictionary with string keys, in insertion order. *)
Fixpoint dict_set (k : string) (v : Q) (d : list (string * Q))
    : list (string * Q) :=
  match d with
  | [] => [(k, v)]
  | (k', v') :: d' =>
      if String.eqb k' k then (k', v) :: d' else (k', v') :: dict_set k v d'
  end.

Fixpoint dict_get (k : string) (d : list (string * Q)) : option Q :=
  match d with
  | [] => None
  | (k', v') :: d' => if String.eqb k' k then Some v' else dict_get k d'
  end.

(** [vz.MetricInformation]: the name and the bounds, where [None] stands for
    a bound that is not specified. *)
Record MetricInformation : Type :=
  { name : string; min_value : option Q; max_value : option Q }.

(** [mi.min_value_or(default_value_fn)] and [mi.max_value_or]: the bound, or
    the default when it is not specified, as the docstring of the runner
    has it. *)
Definition min_value_or (mi : MetricInformation)
    (default_value_fn : unit -> Q) : Q :=
  match min_value mi with Some v => v | None => default_value_fn tt end.

Definition max_value_or (mi : MetricInformation)
    (default_value_fn : unit -> Q) : Q :=
  match max_value mi with Some v => v | None => default_value_fn tt end.

(** [vz.Measurement()], of which the runner fills [metrics]. *)
Record Measurement : Type := { metrics : list (string * Q) }.

Section Defs.

(** Types of [pyvizier], [pythia] and [numpy], which are not among the
    sources: the search space, a trial's parameters, a trial, the state of a
    [np.random.RandomState], its seed, the state of the [PolicySuggester]
    with its supporter, and the errors raised. *)
Variables SearchSpace ParameterDict Trial RandomState Seed Algorithm Error
  : Type.

Record ProblemStatement : Type :=
  { search_space : SearchSpace;
    metric_information : list MetricInformation }.

(** The attributes of [RandomMetricsRunner]. *)
Record RandomMetricsRunner : Type :=
  { problem : ProblemStatement;
    iters : Z;
    batch_size : option Z;
    seed : Seed;
    verbose : Z;
    validate_parameters : bool }.

(** The collaborators: [np.random.RandomState(seed)] and [rng.uniform(low,
    high)], [search_space.assert_contains(parameters)] ([None] when it
    returns, the error when it raises), [suggestion.parameters],
    [suggestion.complete(measurement)], [algorithm.suggest(batch_size)],
    [algorithm.supporter.AddTrials(trials)] and
    [algorithm.supporter.GetTrials()]. *)
Variable RandomState_of : Seed -> RandomState.
Variable uniform : RandomState -> Q -> Q -> Q * RandomState.
Variable assert_contains : SearchSpace -> ParameterDict -> option Error.
Variable parameters : Trial -> ParameterDict.
Variable complete : Trial -> Measurement -> Trial.
Variable suggest : Algorithm -> option Z -> list Trial * Algorithm.
Variable AddTrials : Algorithm -> list Trial -> Algorithm.
Variable GetTrials : Algorithm -> list Trial.

(** The loop over [self.problem.metric_information] in [_run]. *)
Fixpoint _run_metrics (mis : list MetricInformation)
    (measurement : Measurement) (rng : RandomState)
    : Measurement * RandomState :=
  match mis with
  | [] => (measurement, rng)
  | mi :: mis' =>
      let (v, rng) :=
        uniform rng (min_value_or mi (fun _ => -10))
                    (max_value_or mi (fun _ => 10)) in
      _run_metrics mis'
        {| metrics := dict_set (name mi) v (metrics measurement) |} rng
  end.

(** The loop over [suggestions] in [_run], with the list [trials] built so
    far. *)
Fixpoint _run_suggestions (self : RandomMetricsRunner)
    (suggestions trials : list Trial) (rng : RandomState)
    : (Error + list Trial) * RandomState :=
  match suggestions with
  | [] => (inr trials, rng)
  | suggestion :: suggestions' =>
      match
        if validate_parameters self
        then assert_contains (search_space (problem self))
               (parameters suggestion)
        else None
      with
      | Some e => (inl e, rng)
      | None =>
          let (measurement, rng) :=
            _run_metrics (metric_information (problem self))
              {| metrics := [] |} rng in
          _run_suggestions self suggestions'
            (trials ++ [complete suggestion measurement]) rng
      end
  end.

(** The loop over [range(self.iters)] in [_run], for the iterations that are
    left; logging is left out. *)
Fixpoint _run_iterations (self : RandomMetricsRunner) (left : nat)
    (rng : RandomState) (algorithm : Algorithm)
    : (Error + unit) * Algorithm :=
  match left with
  | O => (inr tt, algorithm)
  | S left' =>
      let (suggestions, algorithm) := suggest algorithm (batch_size self) in
      match suggestions with
      | [] => (inr tt, algorithm)
      | _ :: _ =>
          match _run_suggestions self suggestions [] rng with
          | (inl e, _) => (inl e, algorithm)
          | (inr trials, rng) =>
              _run_iterations self left' rng (AddTrials algorithm trials)
          end
      end
  end.

(** [RandomMetricsRunner._run]. *)
Definition _run (self : RandomMetricsRunner) (algorithm : Algorithm)
    : (Error + list Trial) * Algorithm :=
  let rng := RandomState_of (seed self) in
  match _run_iterations self (Z.to_nat (iters self)) rng algorithm with
  | (inl e, algorithm) => (inl e, algorithm)
  | (inr _, algorithm) => (inr (GetTrials algorithm), algorithm)
  end.

End Defs.

(** A small instance on which the statements are exercised: trials are a
    parameter value with the measurement they were completed with, the search
    space is an interval, the generator always draws the lower bound, and the
    algorithm suggests its countdown until it reaches zero. *)
Definition sample_trial : Type := (Z * option Measurement)%type.

Definition sample_uniform (rng : nat) (lo hi : Q) : Q * nat := (lo, S rng).

Definition sample_assert_contains (space : Z * Z) (p : Z) : option string :=
  if ((fst space <=? p) && (p <=? snd space))%Z then None
  else Some "parameter outside the search space".

Definition sample_complete (t : sample_trial) (m : Measurement)
    : sample_trial :=
  (fst t, Some m).

Definition sample_suggest (a : nat * list sample_trial) (batch : option Z)
    : list sample_trial * (nat * list sample_trial) :=
  match fst a with
  | O => ([], a)
  | S n => ([(Z.of_nat (S n), None)], (n, snd a))
  end.

Definition sample_AddTrials (a : nat * list sample_trial)
    (ts : list sample_trial) : nat * list sample_trial :=
  (fst a, snd a ++ ts).

Definition sample_metrics : list MetricInformation :=
  [ {| name := "objective"; min_value := Some 0; max_value := Some 1 |};
    {| name := "cost"; min_value := None; max_value := None |} ].

Definition sample_runner (iterations : Z) (validate : bool)
    : RandomMetricsRunner (Z * Z) nat :=
  {| problem :=
       {| search_space := (0%Z, 2%Z); metric_information := sample_metrics |};
     iters := iterations;
     batch_size := Some 1%Z;
     seed := 0%nat;
     verbose := 0;
     validate_parameters := validate |}.

Definition sample_run (iterations : Z) (validate : bool)
    (a : nat * list sample_trial)
    : (string + list sample_trial) * (nat * list sample_trial) :=
  _run (fun s : nat => s) sample_uniform sample_assert_contains
    (fun t : sample_trial => fst t) sample_complete sample_suggest
    sample_AddTrials (fun a => snd a) (sample_runner iterations validate) a.

End test_runners.

(** The sample [_log_uniform_init(low, high)] draws from the uniform variate
    [unif]: [exp(unif * log(high / low) + log(low))], in exact real
    arithmetic. *)
Definition _log_uniform_init_sample (low high unif : R) : R :=
  exp (unif * ln (high / low) + ln low).

(** A pair of bounds a log-uniform initialiser can sample from: positive
    lower bounds below the upper bounds, entry by entry for vectors. *)
Definition positive_and_ordered (b : Bound * Bound) : Prop :=
  match b with
  | (Scalar lo, Scalar hi) => 0 < lo /\ lo < hi
  | (Vector lo, Vector hi) => Forall2 (fun l h => 0 < l /\ l < h) lo hi
  | _ => False
  end.

(** Every sample of the initialiser lies within [b]: at or above the lower
    bound and below the upper bound, for uniform variates in [[0, 1)]. *)
Definition samples_within (b : Bound * Bound) : Prop :=
  let within l h :=
    forall unif : R, (0 <= unif < 1)%R ->
      (Q2R l <= _log_uniform_init_sample (Q2R l) (Q2R h) unif < Q2R h)%R in
  match b with
  | (Scalar lo, Scalar hi) => within lo hi
  | (Vector lo, Vector hi) => Forall2 within lo hi
  | _ => False
  end.

Section Model.

(** The [jax.Array] values a driver sends into the generator. *)
Variable Array : Type.

(** The linear operator [build_task_kernel_scale_linop] returns. *)
Variable LinOp : Type.

(** [multitask_tuned_gp_models.build_task_kernel_scale_linop(num_tasks,
    multitask_type)], a generator of the same protocol; its module is not
    among the sources, so it is a parameter of the development. *)
Variable build_task_kernel_scale_linop :
  Z -> MultiTaskType -> Gen.t ModelParameter Array LinOp.

(** Array expressions built from the values sent: [jnp.sqrt(x)] and the
    product with a Python float. *)
Inductive Expr : Type :=
| sent (v : Array)
| jnp_sqrt (e : Expr)
| times (c : Q) (e : Expr).

(** The kernels the model composes. *)
Inductive Kernel : Type :=
| MaternFiveHalves (amplitude : Expr)
| FeatureScaledWithCategorical
    (kernel : Kernel) (scale_diag : ContinuousAndCategorical Expr Expr)
| Linear (slope_amplitude shift : Expr)
| FeatureScaled (kernel : Kernel) (scale_diag : Expr)
| ContinuousOnly (kernel : Kernel)
| SumKernel (k1 k2 : Kernel)
| MaskFeatures
    (kernel : Kernel)
    (dimension_is_missing : ContinuousAndCategorical (list bool) (list bool)).

Inductive MultiTaskKernel : Type :=
| Independent (num_tasks : Z) (kernel : Kernel)
| Separable (num_tasks : Z) (base_kernel : Kernel)
    (task_kernel_scale_linop : LinOp).

Record _ConstantMeanFn : Type := { constant : Expr }.

Definition IndexPoints : Type :=
  ContinuousAndCategorical (ndarray Q) (ndarray Z).

(** [tfd.GaussianProcess] and [tfde.MultiTaskGaussianProcess], with the
    keyword arguments the model passes. *)
Inductive Distribution : Type :=
| GaussianProcess
    (kernel : Kernel) (index_points : option IndexPoints)
    (observation_noise_variance : Expr)
    (cholesky_fn : option CholeskyFn) (mean_fn : option _ConstantMeanFn)
| MultiTaskGaussianProcess
    (kernel : MultiTaskKernel) (index_points : option IndexPoints)
    (observation_noise_variance : Expr)
    (cholesky_fn : option CholeskyFn) (mean_fn : option _ConstantMeanFn).

Local Open Scope gen_scope.

(** [VizierGaussianProcess.__call__]. *)
Definition __call__ (self : VizierGaussianProcess)
    (inputs : option ModelInput) : Gen.t ModelParameter Array Distribution :=
  let eps := _boundary_epsilon self in
  let observation_noise_bounds := (Scalar (1e-10 - eps), Scalar (1.0 + eps)) in
  let amplitude_bounds := (Scalar (1e-3 - eps), Scalar (10.0 + eps)) in
  let continuous_ones := np_ones (continuous (_dim self)) in
  let continuous_length_scale_bounds :=
    (Vector (vscale continuous_ones (1e-2 - eps)),
     Vector (vshift (vscale continuous_ones 1e2) eps)) in
  let categorical_ones := np_ones (categorical (_dim self)) in
  let categorical_length_scale_bounds :=
    (Vector (vscale categorical_ones (1e-2 - eps)),
     Vector (vshift (vscale categorical_ones 1e2) eps)) in
  signal_variance <- yield
    {| init_fn :=
         _log_uniform_init (fst amplitude_bounds) (snd amplitude_bounds) [];
       constraint :=
         Some {| bounds := amplitude_bounds;
                 bijector := soft_clip amplitude_bounds 1e-2 |};
       regularizer := log_quadratic 0.01 0.039;
       name := "signal_variance" |} ;;
  let kernel := MaternFiveHalves (jnp_sqrt (sent signal_variance)) in
  continuous_length_scale_squared <- yield
    {| init_fn :=
         _log_uniform_init (fst continuous_length_scale_bounds)
           (snd continuous_length_scale_bounds) [continuous (_dim self)];
       constraint :=
         Some {| bounds := continuous_length_scale_bounds;
                 bijector := soft_clip continuous_length_scale_bounds 1e-2 |};
       regularizer := sum_log_quadratic 0.01 0.5;
       name := "continuous_length_scale_squared" |} ;;
  categorical_length_scale_squared <- yield
    {| init_fn :=
         _log_uniform_init (fst categorical_length_scale_bounds)
           (snd categorical_length_scale_bounds) [categorical (_dim self)];
       constraint :=
         Some {| bounds := categorical_length_scale_bounds;
                 bijector := soft_clip categorical_length_scale_bounds 1e-2 |};
       regularizer := sum_log_quadratic 0.01 0.5;
       name := "categorical_length_scale_squared" |} ;;
  let kernel :=
    FeatureScaledWithCategorical kernel
      {| continuous := jnp_sqrt (sent continuous_length_scale_squared);
         categorical := jnp_sqrt (sent categorical_length_scale_squared) |} in
  let mean_fn : option _ConstantMeanFn := None in
  '(kernel, mean_fn) <- yield_from
    match _linear_coef self with
    | Some linear_coef =>
        slopes <- yield
          {| init_fn :=
               _log_uniform_init (fst amplitude_bounds)
                 (snd amplitude_bounds) [];
             constraint :=
               Some {| bounds := amplitude_bounds;
                       bijector := soft_clip amplitude_bounds 1e-2 |};
             regularizer := log_quadratic 0.01 0.039;
             name := "linear_slope_amplitude" |} ;;
        shift <- yield
          {| init_fn := random_normal [];
             constraint := None;
             regularizer := quadratic 0.5;
             name := "linear_shift" |} ;;
        let kernel :=
          SumKernel kernel
            (ContinuousOnly
               (FeatureScaled
                  (Linear (times linear_coef (sent slopes))
                          (times linear_coef (sent shift)))
                  (jnp_sqrt (sent continuous_length_scale_squared)))) in
        mean_fn_constant <- yield
          {| init_fn :=
               random_normal
                 (if (_num_metrics self =? 1)%Z
                  then [1%Z] else [1%Z; _num_metrics self]);
             constraint := None;
             regularizer := sum_quadratic 0.5;
             name := "mean_fn" |} ;;
        Gen.Return
          (kernel,
           Some {| constant := times linear_coef (sent mean_fn_constant) |})
    | None => Gen.Return (kernel, mean_fn)
    end ;;
  let '(kernel, inputs) :=
    match inputs with
    | Some inputs =>
        (MaskFeatures kernel
           {| continuous := snd (is_missing (continuous inputs));
              categorical := snd (is_missing (categorical inputs)) |},
         Some {| continuous := padded_array (continuous inputs);
                 categorical := padded_array (categorical inputs) |})
    | None => (kernel, None)
    end in
  observation_noise_variance <- yield
    {| init_fn :=
         _log_uniform_init (fst observation_noise_bounds)
           (snd observation_noise_bounds) [];
       constraint :=
         Some {| bounds := observation_noise_bounds;
                 bijector := soft_clip observation_noise_bounds 1e-2 |};
       regularizer := log_quadratic 0.01 0.0039;
       name := "observation_noise_variance" |} ;;
  let cholesky_fn :=
    if _use_retrying_cholesky self
    then Some {| jitter := 1e-4; max_iters := 5 |}
    else None in
  if (_num_metrics self >? 1)%Z then
    if MultiTaskType_eqb (_multitask_type self) INDEPENDENT then
      Gen.Return
        (MultiTaskGaussianProcess
           (Independent (_num_metrics self) kernel)
           inputs (sent observation_noise_variance) cholesky_fn mean_fn)
    else
      task_kernel_scale_linop <- yield_from
        build_task_kernel_scale_linop
          (_num_metrics self) (_multitask_type self) ;;
      Gen.Return
        (MultiTaskGaussianProcess
           (Separable (_num_metrics self) kernel task_kernel_scale_linop)
           inputs (sent observation_noise_variance) cholesky_fn mean_fn)
  else
    Gen.Return
      (GaussianProcess kernel inputs (sent observation_noise_variance)
         cholesky_fn mean_fn).

(** ** The assembled distribution *)

Definition num_tasks (k : MultiTaskKernel) : Z :=
  match k with
  | Independent n _ => n
  | Separable n _ _ => n
  end.

(** The number of examples [N] of the index points. *)
Definition num_examples (x : IndexPoints) : Z :=
  Z.of_nat (fst (shape (continuous x))).

(** The event shape of the two distributions, as the docstring of [__call__]
    gives it: [num_examples] for [GaussianProcess] and
    [[num_examples, num_metrics]] for [MultiTaskGaussianProcess]; there is none
    without index points. *)
Definition event_shape (d : Distribution) : option (list Z) :=
  match d with
  | GaussianProcess _ x _ _ _ =>
      option_map (fun x => [num_examples x]) x
  | MultiTaskGaussianProcess k x _ _ _ =>
      option_map (fun x => [num_examples x; num_tasks k]) x
  end.

Definition is_multitask (d : Distribution) : bool :=
  match d with
  | GaussianProcess _ _ _ _ _ => false
  | MultiTaskGaussianProcess _ _ _ _ _ => true
  end.

Definition cholesky_fn_of (d : Distribution) : option CholeskyFn :=
  match d with
  | GaussianProcess _ _ _ c _ => c
  | MultiTaskGaussianProcess _ _ _ c _ => c
  end.

(** The kernel over the features, below the multi-task wrapper. *)
Definition feature_kernel (d : Distribution) : Kernel :=
  match d with
  | GaussianProcess k _ _ _ _ => k
  | MultiTaskGaussianProcess (Independent _ k) _ _ _ _ => k
  | MultiTaskGaussianProcess (Separable _ k _) _ _ _ _ => k
  end.

(** The kernel below [MaskFeatures], when it is masked. *)
Definition unmasked (k : Kernel) : Kernel :=
  match k with
  | MaskFeatures k' _ => k'
  | _ => k
  end.

(** The shape of a kernel with the linear term added: the sum of the scaled
    Matern kernel and a linear kernel wrapped in [ContinuousOnly]. *)
Definition linear_term_on_continuous_only (k : Kernel) : bool :=
  match k with
  | SumKernel (FeatureScaledWithCategorical (MaternFiveHalves _) _)
      (ContinuousOnly (FeatureScaled (Linear _ _) _)) => true
  | _ => false
  end.

(** ** Masked kernel evaluation and the log-density *)

(** The features of one example. *)
Definition FeatureRow : Type := ContinuousAndCategorical (list Q) (list Z).

(** The rows of the index points, one per example. *)
Definition examples (x : IndexPoints) : list FeatureRow :=
  map (fun r => {| continuous := fst r; categorical := snd r |})
      (combine (rows (continuous x)) (rows (categorical x))).

(** Pairwise evaluation of the kernels of tensorflow_probability, and the
    densities of its two distributions as functions of the kernel matrix over
    the index points, the noise variance, [cholesky_fn], the mean and the
    labels.  They are floating-point code of a library and stay abstract. *)
Variable tfp_apply : Kernel -> FeatureRow -> FeatureRow -> Q.
Variable Labels : Type.
Variable gp_log_prob :
  list (list Q) -> Expr -> option CholeskyFn -> option Expr -> Labels -> Q.
Variable mtgp_log_prob :
  Z -> option LinOp -> list (list Q) -> Expr -> option CholeskyFn ->
  option Expr -> Labels -> Q.

(** [jnp.where(dimension_is_missing, 0, x)] along the feature axis.  The
    mask has the length of the row; where it is shorter the entries beyond
    it are kept. *)
Fixpoint mask_row {A : Type} (zero : A) (m : list bool) (r : list A)
    : list A :=
  match r with
  | [] => []
  | x :: r' => (if hd false m then zero else x) :: mask_row zero (tl m) r'
  end.

Definition mask_features
    (m : ContinuousAndCategorical (list bool) (list bool)) (x : FeatureRow)
    : FeatureRow :=
  {| continuous := mask_row 0 (continuous m) (continuous x);
     categorical := mask_row 0%Z (categorical m) (categorical x) |}.

(** Modelled from the spec: [mask_features.MaskFeatures] is not among the
    sources.  The spec has the missing dimensions masked out of the kernel
    evaluation, and the comment at its use says the features are made zero
    for the kernel: the wrapped kernel is applied to the masked features. *)
Fixpoint apply (k : Kernel) (x1 x2 : FeatureRow) : Q :=
  match k with
  | MaskFeatures k' m => apply k' (mask_features m x1) (mask_features m x2)
  | _ => tfp_apply k x1 x2
  end.

(** [kernel.matrix(index_points, index_points)]. *)
Definition matrix (k : Kernel) (x : IndexPoints) : list (list Q) :=
  map (fun x1 => map (fun x2 => apply k x1 x2) (examples x)) (examples x).

(** [_ConstantMeanFn.__call__]: the argument is deleted. *)
Definition _ConstantMeanFn__call__ (self : _ConstantMeanFn) (x : IndexPoints)
    : Expr :=
  constant self.

Definition mean_at (mean_fn : option _ConstantMeanFn) (x : IndexPoints)
    : option Expr :=
  option_map (fun m => _ConstantMeanFn__call__ m x) mean_fn.

(** [distribution.log_prob(labels)]; there is no density without index
    points. *)
Definition log_prob (d : Distribution) (y : Labels) : option Q :=
  match d with
  | GaussianProcess k (Some x) noise chol mean_fn =>
      Some (gp_log_prob (matrix k x) noise chol (mean_at mean_fn x) y)
  | MultiTaskGaussianProcess (Independent n k) (Some x) noise chol mean_fn =>
      Some (mtgp_log_prob n None (matrix k x) noise chol (mean_at mean_fn x) y)
  | MultiTaskGaussianProcess (Separable n k l) (Some x) noise chol mean_fn =>
      Some (mtgp_log_prob n (Some l) (matrix k x) noise chol
              (mean_at mean_fn x) y)
  | _ => None
  end.

(** Two rows agree outside the dimensions flagged as missing. *)
Definition agree_off_mask {A : Type} (m : list bool) (r1 r2 : list A)
    : Prop :=
  List.length r1 = List.length r2 /\
  forall d, nth d m false = false -> nth_error r1 d = nth_error r2 d.

(** Two padded arrays have the same masks and shape, and differ at most in
    the raw values of the dimensions flagged as missing. *)
Definition differ_only_where_missing {A : Type} (a b : PaddedArray A)
    : Prop :=
  is_missing a = is_missing b /\
  shape (padded_array a) = shape (padded_array b) /\
  Forall2 (agree_off_mask (snd (is_missing a)))
          (rows (padded_array a)) (rows (padded_array b)).

(** ** The declaration schedule, written out *)

(** A parameter constrained to the domain [b] through a soft clip, with a
    log-uniform initialiser over the same domain. *)
Definition bounded_parameter (b : Bound * Bound) (shp : list nat)
    (reg : Regularizer) (nm : string) : ModelParameter :=
  {| init_fn := _log_uniform_init (fst b) (snd b) shp;
     constraint := Some {| bounds := b; bijector := soft_clip b 1e-2 |};
     regularizer := reg;
     name := nm |}.

(** An unconstrained parameter with a normal initialiser. *)
Definition free_parameter (shp : list Z) (reg : Regularizer) (nm : string)
    : ModelParameter :=
  {| init_fn := random_normal shp;
     constraint := None;
     regularizer := reg;
     name := nm |}.

(** The scalar domain [[lo, hi]] widened by [eps] on both sides. *)
Definition widened (eps lo hi : Q) : Bound * Bound :=
  (Scalar (lo - eps), Scalar (hi + eps)).

(** The domain of a vector of [n] length scales. *)
Definition length_scale_domain (eps : Q) (n : nat) : Bound * Bound :=
  (Vector (vscale (np_ones n) (1e-2 - eps)),
   Vector (vshift (vscale (np_ones n) 1e2) eps)).

Definition kernel_declarations (self : VizierGaussianProcess)
    : list ModelParameter :=
  let eps := _boundary_epsilon self in
  [ bounded_parameter (widened eps 1e-3 10.0) []
      (log_quadratic 0.01 0.039) "signal_variance";
    bounded_parameter (length_scale_domain eps (continuous (_dim self)))
      [continuous (_dim self)]
      (sum_log_quadratic 0.01 0.5) "continuous_length_scale_squared";
    bounded_parameter (length_scale_domain eps (categorical (_dim self)))
      [categorical (_dim self)]
      (sum_log_quadratic 0.01 0.5) "categorical_length_scale_squared" ].

Definition mean_fn_shape (num_metrics : Z) : list Z :=
  if (num_metrics =? 1)%Z then [1%Z] else [1%Z; num_metrics].

Definition linear_declarations (self : VizierGaussianProcess)
    : list ModelParameter :=
  match _linear_coef self with
  | Some _ =>
      [ bounded_parameter (widened (_boundary_epsilon self) 1e-3 10.0) []
          (log_quadratic 0.01 0.039) "linear_slope_amplitude";
        free_parameter [] (quadratic 0.5) "linear_shift";
        free_parameter (mean_fn_shape (_num_metrics self))
          (sum_quadratic 0.5) "mean_fn" ]
  | None => []
  end.

Definition noise_declaration (self : VizierGaussianProcess)
    : ModelParameter :=
  bounded_parameter (widened (_boundary_epsilon self) 1e-10 1.0) []
    (log_quadratic 0.01 0.0039) "observation_noise_variance".

(** The declarations up to and including the observation noise. *)
Definition base_schedule (self : VizierGaussianProcess)
    : list ModelParameter :=
  kernel_declarations self ++ linear_declarations self
    ++ [noise_declaration self].

(** The declarations of the nested run of
    [build_task_kernel_scale_linop], when there is one. *)
Definition nested_schedule (d : Gen.driver ModelParameter Array)
    (self : VizierGaussianProcess) : list ModelParameter :=
  if (_num_metrics self >? 1)%Z
     && negb (MultiTaskType_eqb (_multitask_type self) INDEPENDENT)
  then
    Gen.emitted (Gen.after_all (base_schedule self) d)
      (build_task_kernel_scale_linop
         (_num_metrics self) (_multitask_type self))
  else [].

(** The names of a list of declarations. *)
Definition names (ps : list ModelParameter) : list string := map name ps.

Definition has_linear_term (self : VizierGaussianProcess) : bool :=
  match _linear_coef self with Some _ => true | None => false end.

(** ** Reading the assembled distribution *)

Definition index_points_of (d : Distribution) : option IndexPoints :=
  match d with
  | GaussianProcess _ x _ _ _ => x
  | MultiTaskGaussianProcess _ x _ _ _ => x
  end.

Definition observation_noise_variance_of (d : Distribution) : Expr :=
  match d with
  | GaussianProcess _ _ v _ _ => v
  | MultiTaskGaussianProcess _ _ v _ _ => v
  end.

Definition mean_fn_of (d : Distribution) : option _ConstantMeanFn :=
  match d with
  | GaussianProcess _ _ _ _ m => m
  | MultiTaskGaussianProcess _ _ _ _ m => m
  end.

(** The value the driver sent for the first of the declarations [ps] that
    is named [nm], in a run that emitted [ps]. *)
Fixpoint value_sent (d : Gen.driver ModelParameter Array)
    (ps : list ModelParameter) (nm : string) : option Array :=
  match ps with
  | [] => None
  | p :: ps' =>
      if String.eqb (name p) nm then Some (d [] p)
      else value_sent (Gen.after p d) ps' nm
  end.

(** The multi-task type leads to a nested run. *)
Definition runs_nested (self : VizierGaussianProcess) : bool :=
  (_num_metrics self >? 1)%Z
  && negb (MultiTaskType_eqb (_multitask_type self) INDEPENDENT).

(** ** Sample data

    Concrete configurations, inputs, drivers and stand-ins for the abstract
    parameters, on which the statements below are exercised. *)

(** A nested generator with one declaration, whatever its arguments. *)
Definition sample_task_kernel_scale_linop (num_tasks : Z) (t : MultiTaskType)
    : Gen.t ModelParameter Q unit :=
  Gen.Yield (free_parameter [num_tasks] (sum_quadratic 0.5) "task_kernel_scale")
    (fun _ => Gen.Return tt).

Definition sample_self : VizierGaussianProcess :=
  {| _dim := {| continuous := 2%nat; categorical := 1%nat |};
     _num_metrics := 3%Z;
     _use_retrying_cholesky := true;
     _boundary_epsilon := 1e-12;
     _linear_coef := Some 0.5;
     _multitask_type := SEPARABLE 0 |}.

(** The same dimensionality, metrics and type with another epsilon, Cholesky
    option and coefficient. *)
Definition sample_self' : VizierGaussianProcess :=
  {| _dim := {| continuous := 2%nat; categorical := 1%nat |};
     _num_metrics := 3%Z;
     _use_retrying_cholesky := false;
     _boundary_epsilon := 1e-9;
     _linear_coef := Some 2;
     _multitask_type := SEPARABLE 0 |}.

Definition sample_single : VizierGaussianProcess :=
  {| _dim := {| continuous := 2%nat; categorical := 1%nat |};
     _num_metrics := 1%Z;
     _use_retrying_cholesky := true;
     _boundary_epsilon := 1e-12;
     _linear_coef := None;
     _multitask_type := SEPARABLE 0 |}.

(** Two examples; the second continuous dimension is flagged as missing. *)
Definition sample_inputs (raw1 raw2 : Q) : ModelInput :=
  {| continuous :=
       {| padded_array :=
            {| shape := (2%nat, 2%nat);
               rows := [[0.25; raw1]; [0.75; raw2]] |};
          is_missing := ([false; false], [false; true]) |};
     categorical :=
       {| padded_array :=
            {| shape := (2%nat, 1%nat); rows := [[1%Z]; [0%Z]] |};
          is_missing := ([false; false], [false]) |} |}.

Definition sample_driver (v : Q) : Gen.driver ModelParameter Q :=
  fun history _ => v + inject_Z (Z.of_nat (List.length history)).

(** Stand-ins for the library's kernel evaluation and densities. *)
Definition sample_apply (A : Type) (k : A) (x1 x2 : FeatureRow) : Q :=
  fold_right Qplus 0 (continuous x1) * fold_right Qplus 0 (continuous x2).

Definition sample_gp_log_prob (A B C : Type) (m : list (list Q)) (noise : A)
    (chol : B) (mean : C) (y : unit) : Q :=
  fold_right Qplus 0 (map (fold_right Qplus 0) m).

Definition sample_mtgp_log_prob (A B C D : Type) (n : Z) (l : D)
    (m : list (list Q)) (noise : A) (chol : B) (mean : C) (y : unit) : Q :=
  inject_Z n * fold_right Qplus 0 (map (fold_right Qplus 0) m).

(** Model data of two examples whose labels have no metric column. *)
Definition zero_metrics_data : ModelData :=
  {| features := sample_inputs 0 0;
     labels :=
       {| padded_array := {| shape := (2%nat, 0%nat); rows := [[]; []] |};
          is_missing := ([false; false], []) |} |}.

(** The fields [build_model] passes to the constructor for that data. *)
Definition zero_metrics_self : VizierGaussianProcess :=
  {| _dim := {| continuous := 2%nat; categorical := 1%nat |};
     _num_metrics := 0%Z;
     _use_retrying_cholesky := true;
     _boundary_epsilon := 1e-12;
     _linear_coef := None;
     _multitask_type := INDEPENDENT |}.

(** * Properties *)

(** ** Generators *)

Lemma run_bind (Y S A B : Type) (g : Gen.t Y S A) (f : A -> Gen.t Y S B)
    (d : Gen.driver Y S) :
  Gen.run d (Gen.bind g f) =
  let (ys, a) := Gen.run d g in
  let (zs, b) := Gen.run (Gen.after_all ys d) (f a) in
  (ys ++ zs, b).
Proof.
  revert d.
  induction g as [a | y k IH]; intros d; simpl.
  - change (Gen.after_all [] d) with d.
    now destruct (Gen.run d (f a)).
  - rewrite IH.
    destruct (Gen.run (Gen.after y d) (k (d [] y))) as [ys a].
    change (Gen.after_all ys (Gen.after y d)) with (Gen.after_all (y :: ys) d).
    now destruct (Gen.run (Gen.after_all (y :: ys) d) (f a)).
Qed.

Lemma emitted_bind (Y S A B : Type) (g : Gen.t Y S A) (f : A -> Gen.t Y S B)
    (d : Gen.driver Y S) :
  Gen.emitted d (Gen.bind g f) =
  Gen.emitted d g ++
  Gen.emitted (Gen.after_all (Gen.emitted d g) d) (f (Gen.result d g)).
Proof.
  unfold Gen.emitted, Gen.result.
  rewrite run_bind.
  destruct (Gen.run d g) as [ys a]; simpl.
  now destruct (Gen.run (Gen.after_all ys d) (f a)).
Qed.

Lemma result_bind (Y S A B : Type) (g : Gen.t Y S A) (f : A -> Gen.t Y S B)
    (d : Gen.driver Y S) :
  Gen.result d (Gen.bind g f) =
  Gen.result (Gen.after_all (Gen.emitted d g) d) (f (Gen.result d g)).
Proof.
  unfold Gen.emitted, Gen.result.
  rewrite run_bind.
  destruct (Gen.run d g) as [ys a]; simpl.
  now destruct (Gen.run (Gen.after_all ys d) (f a)).
Qed.

Lemma emitted_yield (Y S R : Type) (y : Y) (k : S -> Gen.t Y S R)
    (d : Gen.driver Y S) :
  Gen.emitted d (Gen.Yield y k) =
  y :: Gen.emitted (Gen.after y d) (k (d [] y)).
Proof.
  unfold Gen.emitted; simpl.
  now destruct (Gen.run (Gen.after y d) (k (d [] y))).
Qed.

Lemma result_yield (Y S R : Type) (y : Y) (k : S -> Gen.t Y S R)
    (d : Gen.driver Y S) :
  Gen.result d (Gen.Yield y k) = Gen.result (Gen.after y d) (k (d [] y)).
Proof.
  unfold Gen.result; simpl.
  now destruct (Gen.run (Gen.after y d) (k (d [] y))).
Qed.

Lemma emitted_call (self : VizierGaussianProcess) (inputs : option ModelInput)
    (d : Gen.driver ModelParameter Array) :
  Gen.emitted d (__call__ self inputs) =
  base_schedule self ++ nested_schedule d self.
Proof.
  unfold __call__, base_schedule, nested_schedule, linear_declarations.
  destruct self as [dim nm chol eps lin mt]; simpl.
  destruct lin as [c |], inputs as [x |],
    (nm >? 1)%Z, (MultiTaskType_eqb mt INDEPENDENT);
    simpl; repeat (rewrite emitted_yield; simpl);
    try reflexivity;
    rewrite emitted_bind; unfold Gen.emitted at 2; simpl;
    rewrite app_nil_r; reflexivity.
Qed.

(** ** The schedule of [__call__] *)

Lemma names_base_schedule (self : VizierGaussianProcess) :
  names (base_schedule self) =
  ["signal_variance"; "continuous_length_scale_squared";
   "categorical_length_scale_squared"]
  ++ (if has_linear_term self
      then ["linear_slope_amplitude"; "linear_shift"; "mean_fn"] else [])
  ++ ["observation_noise_variance"].
Proof.
  unfold base_schedule, linear_declarations, has_linear_term, names.
  now destruct (_linear_coef self).
Qed.

Lemma names_app (ps qs : list ModelParameter) :
  names (ps ++ qs) = names ps ++ names qs.
Proof. apply map_app. Qed.

Local Arguments matrix : simpl never.

(** Unfolds a run of [__call__] up to the nested generator. *)
Ltac step_call :=
  repeat (rewrite ?result_yield, ?emitted_yield; simpl);
  try (rewrite ?result_bind, ?emitted_bind; simpl).

Lemma result_call_shape (self : VizierGaussianProcess)
    (inputs : option ModelInput) (d : Gen.driver ModelParameter Array) :
  let D := Gen.result d (__call__ self inputs) in
  is_multitask D = (_num_metrics self >? 1)%Z /\
  cholesky_fn_of D =
    (if _use_retrying_cholesky self
     then Some {| jitter := 1e-4; max_iters := 5 |} else None) /\
  linear_term_on_continuous_only (unmasked (feature_kernel D)) =
    has_linear_term self.
Proof.
  unfold __call__, has_linear_term.
  destruct self as [dim nm chol eps lin mt]; simpl.
  destruct lin as [c |], inputs as [x |],
    (nm >? 1)%Z, (MultiTaskType_eqb mt INDEPENDENT);
    simpl; step_call; unfold Gen.result; simpl; auto.
Qed.

(** C1.  For a fixed dimensionality, number of metrics, multi-task type and
    presence of a linear coefficient, any two runs of the coroutine emit
    declarations with the same names, in the same order and number, whatever
    values the drivers send, whatever the feature data, the boundary epsilon,
    the Cholesky option and the value of the coefficient.  The nested
    generator is a parameter; its names are assumed not to depend on the
    values sent to it. *)
Theorem declaration_schedule_deterministic :
  (forall n t (d1 d2 : Gen.driver ModelParameter Array),
      names (Gen.emitted d1 (build_task_kernel_scale_linop n t)) =
      names (Gen.emitted d2 (build_task_kernel_scale_linop n t))) ->
  forall (self1 self2 : VizierGaussianProcess)
         (inputs1 inputs2 : option ModelInput)
         (d1 d2 : Gen.driver ModelParameter Array),
    _dim self1 = _dim self2 ->
    _num_metrics self1 = _num_metrics self2 ->
    _multitask_type self1 = _multitask_type self2 ->
    has_linear_term self1 = has_linear_term self2 ->
    names (Gen.emitted d1 (__call__ self1 inputs1)) =
    names (Gen.emitted d2 (__call__ self2 inputs2)).
Proof.
  intros Hnested self1 self2 inputs1 inputs2 d1 d2 _ Hnm Hmt Hlin.
  rewrite !emitted_call.
  rewrite !names_app, !names_base_schedule, Hlin.
  f_equal.
  unfold nested_schedule.
  rewrite Hnm, Hmt.
  destruct ((_num_metrics self2 >? 1)%Z
            && negb (MultiTaskType_eqb (_multitask_type self2) INDEPENDENT));
    [apply Hnested | reflexivity].
Qed.

(** C4.  With index points over [N] examples, the assembled model is a
    [GaussianProcess] with event shape [[N]] for one metric and a
    [MultiTaskGaussianProcess] with event shape [[N, num_metrics]] for more
    than one. *)
Theorem event_shape_selection (self : VizierGaussianProcess)
    (inputs : ModelInput) (d : Gen.driver ModelParameter Array) :
  let D := Gen.result d (__call__ self (Some inputs)) in
  let N := Z.of_nat (fst (shape (padded_array (continuous inputs)))) in
  (_num_metrics self = 1%Z ->
     is_multitask D = false /\ event_shape D = Some [N]) /\
  ((_num_metrics self > 1)%Z ->
     is_multitask D = true /\
     event_shape D = Some [N; _num_metrics self]).
Proof.
  unfold __call__.
  destruct self as [dim nm chol eps lin mt]; simpl.
  split; intros Hnm.
  - subst nm.
    destruct lin as [c |]; simpl; step_call; unfold Gen.result; simpl; auto.
  - apply Z.gt_lt, Z.gtb_lt in Hnm.
    destruct lin as [c |], (MultiTaskType_eqb mt INDEPENDENT);
      simpl; step_call; rewrite ?Hnm; simpl; step_call;
      unfold Gen.result; simpl; auto.
Qed.

Lemma base_schedule_with_multitask_type (self : VizierGaussianProcess)
    (t : MultiTaskType) :
  base_schedule (with_multitask_type self t) = base_schedule self.
Proof. reflexivity. Qed.

Lemma nested_schedule_with_multitask_type (self : VizierGaussianProcess)
    (t : MultiTaskType) (d : Gen.driver ModelParameter Array) :
  nested_schedule d (with_multitask_type self t) =
  if (_num_metrics self >? 1)%Z && negb (MultiTaskType_eqb t INDEPENDENT)
  then
    Gen.emitted (Gen.after_all (base_schedule self) d)
      (build_task_kernel_scale_linop (_num_metrics self) t)
  else [].
Proof. reflexivity. Qed.

(** C5.  For more than one metric, the INDEPENDENT type emits the base
    schedule and nothing more; a separable variant emits the base schedule,
    which ends with the observation-noise declaration, followed at once by
    the declarations of the nested run of [build_task_kernel_scale_linop];
    INDEPENDENT emits strictly fewer declarations than a separable variant.
    The nested generator is a parameter, assumed to emit at least one
    declaration for a separable variant. *)
Theorem multitask_declarations :
  (forall n v (d : Gen.driver ModelParameter Array),
      Gen.emitted d (build_task_kernel_scale_linop n (SEPARABLE v)) <> []) ->
  forall (self : VizierGaussianProcess) (inputs : option ModelInput)
         (d : Gen.driver ModelParameter Array),
    (_num_metrics self > 1)%Z ->
    Gen.emitted d (__call__ (with_multitask_type self INDEPENDENT) inputs) =
      base_schedule self /\
    (exists ps, base_schedule self = ps ++ [noise_declaration self]) /\
    forall v (d' : Gen.driver ModelParameter Array),
      Gen.emitted d' (__call__ (with_multitask_type self (SEPARABLE v)) inputs) =
        base_schedule self ++
        Gen.emitted (Gen.after_all (base_schedule self) d')
          (build_task_kernel_scale_linop (_num_metrics self) (SEPARABLE v)) /\
      (List.length
         (Gen.emitted d
            (__call__ (with_multitask_type self INDEPENDENT) inputs)) <
       List.length
         (Gen.emitted d'
            (__call__ (with_multitask_type self (SEPARABLE v)) inputs)))%nat.
Proof.
  intros Hnested self inputs d Hnm.
  apply Z.gt_lt, Z.gtb_lt in Hnm.
  assert (Hindep : forall d0,
             Gen.emitted d0
               (__call__ (with_multitask_type self INDEPENDENT) inputs) =
             base_schedule self).
  { intros d0.
    rewrite emitted_call, base_schedule_with_multitask_type,
      nested_schedule_with_multitask_type, Hnm.
    apply app_nil_r. }
  assert (Hsep : forall v d0,
             Gen.emitted d0
               (__call__ (with_multitask_type self (SEPARABLE v)) inputs) =
             base_schedule self ++
             Gen.emitted (Gen.after_all (base_schedule self) d0)
               (build_task_kernel_scale_linop
                  (_num_metrics self) (SEPARABLE v))).
  { intros v d0.
    now rewrite emitted_call, base_schedule_with_multitask_type,
      nested_schedule_with_multitask_type, Hnm. }
  split; [apply Hindep |].
  split.
  { exists (kernel_declarations self ++ linear_declarations self).
    unfold base_schedule. now rewrite app_assoc. }
  intros v d'.
  split; [apply Hsep |].
  rewrite Hindep, Hsep, length_app.
  specialize (Hnested (_num_metrics self) v
                (Gen.after_all (base_schedule self) d')).
  destruct (Gen.emitted (Gen.after_all (base_schedule self) d')
              (build_task_kernel_scale_linop (_num_metrics self) (SEPARABLE v)));
    [contradiction | simpl; lia].
Qed.

(** C7.  With a linear coefficient, exactly three declarations come between
    the categorical length scale and the observation noise: the slope
    amplitude over [[1e-3, 10]] (widened by epsilon) with its soft clip, the
    unconstrained shift, and the mean-function constant of shape [[1]] for one
    metric and [[1, num_metrics]] otherwise; the kernel is then the sum of the
    scaled Matern kernel and a linear kernel under [ContinuousOnly].  Without
    a coefficient nothing comes between the two and the kernel has no such
    term. *)
Theorem linear_term_declarations (self : VizierGaussianProcess)
    (inputs : option ModelInput) (d : Gen.driver ModelParameter Array) :
  let eps := _boundary_epsilon self in
  let emitted := Gen.emitted d (__call__ self inputs) in
  let kernel :=
    unmasked (feature_kernel (Gen.result d (__call__ self inputs))) in
  names (kernel_declarations self) =
    ["signal_variance"; "continuous_length_scale_squared";
     "categorical_length_scale_squared"] /\
  name (noise_declaration self) = "observation_noise_variance" /\
  match _linear_coef self with
  | Some _ =>
      emitted =
        kernel_declarations self
        ++ [ bounded_parameter (Scalar (1e-3 - eps), Scalar (10.0 + eps)) []
               (log_quadratic 0.01 0.039) "linear_slope_amplitude";
             free_parameter [] (quadratic 0.5) "linear_shift";
             free_parameter
               (if (_num_metrics self =? 1)%Z
                then [1%Z] else [1%Z; _num_metrics self])
               (sum_quadratic 0.5) "mean_fn" ]
        ++ noise_declaration self :: nested_schedule d self /\
      linear_term_on_continuous_only kernel = true
  | None =>
      emitted =
        kernel_declarations self
        ++ noise_declaration self :: nested_schedule d self /\
      linear_term_on_continuous_only kernel = false
  end.
Proof.
  intros eps emitted kernel.
  split; [reflexivity |].
  split; [reflexivity |].
  subst emitted kernel.
  rewrite emitted_call.
  destruct (result_call_shape self inputs d) as (_ & _ & ->).
  unfold base_schedule, linear_declarations, has_linear_term.
  destruct (_linear_coef self); split; reflexivity.
Qed.

Lemma Forall_vscale_ones (n : nat) (c : Q) :
  Forall (fun q => q == c) (vscale (np_ones n) c).
Proof.
  unfold vscale, np_ones.
  induction n as [| n IH]; simpl; constructor.
  - apply Qmult_1_l.
  - exact IH.
Qed.

Lemma Forall_vshift_vscale_ones (n : nat) (c e : Q) :
  Forall (fun q => q == c + e) (vshift (vscale (np_ones n) c) e).
Proof.
  unfold vshift, vscale, np_ones.
  induction n as [| n IH]; simpl; constructor.
  - now rewrite Qmult_1_l.
  - exact IH.
Qed.

Lemma length_vscale_ones (n : nat) (c : Q) :
  List.length (vscale (np_ones n) c) = n.
Proof. unfold vscale, np_ones. now rewrite length_map, repeat_length. Qed.

Lemma length_vshift_vscale_ones (n : nat) (c e : Q) :
  List.length (vshift (vscale (np_ones n) c) e) = n.
Proof.
  unfold vshift, vscale, np_ones. now rewrite !length_map, repeat_length.
Qed.

(** C8.  The first three declarations are the signal variance over
    [[1e-3 - eps, 10 + eps]], the continuous length scales over
    [[1e-2 - eps, 100 + eps]] in each of the continuous dimensions and the
    categorical length scales over the same domain in each of the categorical
    dimensions; the observation noise, over [[1e-10 - eps, 1 + eps]], is
    declared later.  Each has the soft clip of exactly its bounds as
    bijector. *)
Theorem declared_domains (self : VizierGaussianProcess)
    (inputs : option ModelInput) (d : Gen.driver ModelParameter Array) :
  let eps := _boundary_epsilon self in
  let n_continuous := continuous (_dim self) in
  let n_categorical := categorical (_dim self) in
  exists lo_c hi_c lo_k hi_k rest,
    Gen.emitted d (__call__ self inputs) =
      {| init_fn :=
           _log_uniform_init (Scalar (1e-3 - eps)) (Scalar (10.0 + eps)) [];
         constraint :=
           Some {| bounds := (Scalar (1e-3 - eps), Scalar (10.0 + eps));
                   bijector :=
                     {| low := Scalar (1e-3 - eps);
                        high := Scalar (10.0 + eps);
                        hinge_softness := 1e-2 |} |};
         regularizer := log_quadratic 0.01 0.039;
         name := "signal_variance" |}
      :: {| init_fn :=
              _log_uniform_init (Vector lo_c) (Vector hi_c) [n_continuous];
            constraint :=
              Some {| bounds := (Vector lo_c, Vector hi_c);
                      bijector :=
                        {| low := Vector lo_c;
                           high := Vector hi_c;
                           hinge_softness := 1e-2 |} |};
            regularizer := sum_log_quadratic 0.01 0.5;
            name := "continuous_length_scale_squared" |}
      :: {| init_fn :=
              _log_uniform_init (Vector lo_k) (Vector hi_k) [n_categorical];
            constraint :=
              Some {| bounds := (Vector lo_k, Vector hi_k);
                      bijector :=
                        {| low := Vector lo_k;
                           high := Vector hi_k;
                           hinge_softness := 1e-2 |} |};
            regularizer := sum_log_quadratic 0.01 0.5;
            name := "categorical_length_scale_squared" |}
      :: rest /\
    In {| init_fn :=
            _log_uniform_init (Scalar (1e-10 - eps)) (Scalar (1.0 + eps)) [];
          constraint :=
            Some {| bounds := (Scalar (1e-10 - eps), Scalar (1.0 + eps));
                    bijector :=
                      {| low := Scalar (1e-10 - eps);
                         high := Scalar (1.0 + eps);
                         hinge_softness := 1e-2 |} |};
          regularizer := log_quadratic 0.01 0.0039;
          name := "observation_noise_variance" |} rest /\
    List.length lo_c = n_continuous /\ List.length hi_c = n_continuous /\
    List.length lo_k = n_categorical /\ List.length hi_k = n_categorical /\
    Forall (fun q => q == 1e-2 - eps) lo_c /\
    Forall (fun q => q == 100 + eps) hi_c /\
    Forall (fun q => q == 1e-2 - eps) lo_k /\
    Forall (fun q => q == 100 + eps) hi_k.
Proof.
  intros eps n_continuous n_categorical.
  exists (vscale (np_ones n_continuous) (1e-2 - eps)),
         (vshift (vscale (np_ones n_continuous) 1e2) eps),
         (vscale (np_ones n_categorical) (1e-2 - eps)),
         (vshift (vscale (np_ones n_categorical) 1e2) eps),
         (linear_declarations self ++ [noise_declaration self]
          ++ nested_schedule d self).
  split.
  { rewrite emitted_call. unfold base_schedule, kernel_declarations.
    simpl. now rewrite <- app_assoc. }
  split.
  { apply in_or_app; right. now left. }
  repeat split;
    auto using length_vscale_ones, length_vshift_vscale_ones,
      Forall_vscale_ones, Forall_vshift_vscale_ones.
Qed.

(** C10.  With one metric the multi-task type has no effect: the generators
    for any two types are the same, so they emit the same declarations and
    return the same distribution under every driver; the declarations are
    the base schedule, with none from a nested run, and the distribution is a
    single-task [GaussianProcess]. *)
Theorem multitask_type_irrelevant_for_one_metric
    (self : VizierGaussianProcess) (inputs : option ModelInput) :
  _num_metrics self = 1%Z ->
  forall t1 t2 : MultiTaskType,
    __call__ (with_multitask_type self t1) inputs =
    __call__ (with_multitask_type self t2) inputs /\
    forall d : Gen.driver ModelParameter Array,
      Gen.emitted d (__call__ (with_multitask_type self t1) inputs) =
        base_schedule self /\
      is_multitask
        (Gen.result d (__call__ (with_multitask_type self t1) inputs)) = false.
Proof.
  intros Hnm t1 t2.
  split.
  - destruct self as [dim nm chol eps lin mt]; simpl in Hnm; subst nm.
    reflexivity.
  - intros d. split.
    + rewrite emitted_call, base_schedule_with_multitask_type,
        nested_schedule_with_multitask_type, Hnm.
      apply app_nil_r.
    + destruct (result_call_shape (with_multitask_type self t1) inputs d)
        as (-> & _).
      simpl. now rewrite Hnm.
Qed.

(** X17.  The Cholesky function handed to the distribution: the first
    component of [retrying_cholesky] with jitter [1e-4] and at most [5]
    iterations when [_use_retrying_cholesky] is set, and none (the
    distribution's default) otherwise. *)
Lemma cholesky_fn_selection (self : VizierGaussianProcess)
    (inputs : option ModelInput) (d : Gen.driver ModelParameter Array) :
  cholesky_fn_of (Gen.result d (__call__ self inputs)) =
  if _use_retrying_cholesky self
  then Some {| jitter := 1e-4; max_iters := 5 |} else None.
Proof. now destruct (result_call_shape self inputs d) as (_ & -> & _). Qed.

(** ** Masked dimensions *)

Lemma mask_row_agree (A : Type) (zero : A) (m : list bool) (r1 r2 : list A) :
  agree_off_mask m r1 r2 -> mask_row zero m r1 = mask_row zero m r2.
Proof.
  revert m r2.
  induction r1 as [| x r1 IH]; intros m [| y r2] [Hlen Hnth];
    try discriminate; [reflexivity |].
  simpl. f_equal.
  - assert (H0 := Hnth 0%nat). simpl in H0.
    destruct m as [| [|] m]; simpl in *; try reflexivity;
      now injection (H0 eq_refl).
  - apply IH. split; [now injection Hlen |].
    intros i Hi. apply (Hnth (S i)).
    destruct m; [now destruct i | exact Hi].
Qed.

Lemma examples_agree (m : ContinuousAndCategorical (list bool) (list bool))
    (c1 c2 : list (list Q)) (k1 k2 : list (list Z)) :
  Forall2 (agree_off_mask (continuous m)) c1 c2 ->
  Forall2 (agree_off_mask (categorical m)) k1 k2 ->
  map (mask_features m)
      (map (fun r => {| continuous := fst r; categorical := snd r |})
           (combine c1 k1)) =
  map (mask_features m)
      (map (fun r => {| continuous := fst r; categorical := snd r |})
           (combine c2 k2)).
Proof.
  intros Hc. revert k1 k2.
  induction Hc as [| r1 r2 c1 c2 Hr Hc IH]; intros k1 k2 Hk; [reflexivity |].
  destruct Hk as [| s1 s2 k1 k2 Hs Hk]; [reflexivity |].
  simpl. f_equal; [| now apply IH].
  unfold mask_features; simpl.
  now rewrite (mask_row_agree 0 Hr), (mask_row_agree 0%Z Hs).
Qed.

Lemma matrix_MaskFeatures (k : Kernel)
    (m : ContinuousAndCategorical (list bool) (list bool)) (x : IndexPoints) :
  matrix (MaskFeatures k m) x =
  map (fun x1 => map (fun x2 => apply k x1 x2)
                     (map (mask_features m) (examples x)))
      (map (mask_features m) (examples x)).
Proof.
  unfold matrix. rewrite map_map.
  apply map_ext; intros x1. now rewrite map_map.
Qed.

Lemma matrix_masked_inputs (k : Kernel) (x1 x2 : ModelInput) :
  differ_only_where_missing (continuous x1) (continuous x2) ->
  differ_only_where_missing (categorical x1) (categorical x2) ->
  matrix
    (MaskFeatures k
       {| continuous := snd (is_missing (continuous x1));
          categorical := snd (is_missing (categorical x1)) |})
    {| continuous := padded_array (continuous x1);
       categorical := padded_array (categorical x1) |} =
  matrix
    (MaskFeatures k
       {| continuous := snd (is_missing (continuous x2));
          categorical := snd (is_missing (categorical x2)) |})
    {| continuous := padded_array (continuous x2);
       categorical := padded_array (categorical x2) |}.
Proof.
  intros (Hmc & _ & Hc) (Hmk & _ & Hk).
  rewrite <- Hmc, <- Hmk, !matrix_MaskFeatures.
  unfold examples; simpl.
  now rewrite (examples_agree
                 {| continuous := snd (is_missing (continuous x1));
                    categorical := snd (is_missing (categorical x1)) |}
                 Hc Hk).
Qed.

(** C6.  Two inputs with the same masks and shapes that differ only in the
    raw values of feature dimensions flagged as missing give the same
    log-density, for every configuration, driver and labels: the kernel is
    wrapped in [MaskFeatures], which evaluates it on features that are zero in
    those dimensions. *)
Theorem masked_dimensions_noninterference (self : VizierGaussianProcess)
    (x1 x2 : ModelInput) (d : Gen.driver ModelParameter Array) (y : Labels) :
  differ_only_where_missing (continuous x1) (continuous x2) ->
  differ_only_where_missing (categorical x1) (categorical x2) ->
  log_prob (Gen.result d (__call__ self (Some x1))) y =
  log_prob (Gen.result d (__call__ self (Some x2))) y /\
  log_prob (Gen.result d (__call__ self (Some x1))) y <> None.
Proof.
  intros Hc Hk.
  unfold __call__.
  destruct self as [dim nm chol eps lin mt]; simpl.
  destruct lin as [c |], (nm >? 1)%Z, (MultiTaskType_eqb mt INDEPENDENT);
    simpl; step_call; unfold Gen.result; simpl;
    (split; [| discriminate]);
    do 2 f_equal; now apply matrix_masked_inputs.
Qed.

(** ** Construction *)

Lemma __attrs_post_init___guard (self : VizierGaussianProcess) :
  ((_num_metrics self < 1)%Z ->
     exists msg, __attrs_post_init__ self = inl (ValueError msg)) /\
  ((_num_metrics self >= 1)%Z -> __attrs_post_init__ self = inr tt).
Proof.
  unfold __attrs_post_init__.
  destruct (Z.ltb_spec (_num_metrics self) 1); split; intros; try lia; eauto.
Qed.

Lemma __init___returns (self : VizierGaussianProcess) :
  __init__ self = inr self.
Proof. reflexivity. Qed.

(** C2, at labels without a metric column.  The guard in
    [__attrs_post_init__] raises [ValueError] for zero metrics, but the
    constructor generated by [struct.dataclass] looks for [__post_init__],
    which the class does not define, so the guard is not run: the constructor
    and [build_model] return normally. *)
Theorem build_model_accepts_zero_metrics :
  _num_metrics zero_metrics_self = 0%Z /\
  __attrs_post_init__ zero_metrics_self =
    inl (ValueError
           "Number of metrics must be at least 1, got: {self._num_metrics}") /\
  __init__ zero_metrics_self = inr zero_metrics_self /\
  build_model zero_metrics_data true None INDEPENDENT =
    inr {| coroutine := zero_metrics_self |}.
Proof. repeat split. Qed.

(** ** The boundary epsilon *)

(** With a positive epsilon the nominal bounds lie strictly inside the
    widened domain handed to the soft clip. *)
Lemma widened_strictly_contains (eps lo hi : Q) :
  0 < eps ->
  exists lo' hi',
    widened eps lo hi = (Scalar lo', Scalar hi') /\ lo' < lo /\ hi < hi'.
Proof.
  intros Heps. exists (lo - eps), (hi + eps).
  split; [reflexivity |].
  split.
  - apply Qlt_minus_iff. setoid_replace (lo + - (lo - eps)) with eps by ring.
    exact Heps.
  - apply Qlt_minus_iff. setoid_replace (hi + eps + - hi) with eps by ring.
    exact Heps.
Qed.

(** ** The log-uniform initialiser *)

Lemma _log_uniform_init_sample_factor (low high unif : R) :
  (0 < low)%R ->
  _log_uniform_init_sample low high unif =
  (low * exp (unif * ln (high / low)))%R.
Proof.
  intros Hlow. unfold _log_uniform_init_sample.
  rewrite exp_plus, exp_ln by assumption. ring.
Qed.

Lemma exp_monotone (x y : R) : (x <= y)%R -> (exp x <= exp y)%R.
Proof.
  intros [Hlt | ->]; [left; now apply exp_increasing | right; reflexivity].
Qed.

Lemma log_uniform_sample_bounds (low high unif : R) :
  (0 < low <= high)%R -> (0 <= unif < 1)%R ->
  (low <= _log_uniform_init_sample low high unif <= high)%R /\
  (low < high -> _log_uniform_init_sample low high unif < high)%R.
Proof.
  intros [Hlow Hle] [Hu0 Hu1].
  rewrite _log_uniform_init_sample_factor by assumption.
  assert (Hr : (1 <= high / low)%R).
  { apply (Rmult_le_reg_r low); [assumption |].
    unfold Rdiv. rewrite Rmult_assoc, Rinv_l by Lra.lra. Lra.lra. }
  assert (Hln : (0 <= ln (high / low))%R).
  { rewrite <- ln_1. destruct Hr as [Hr | <-]; [left | right; reflexivity].
    apply ln_increasing; Lra.lra. }
  assert (Hhigh : (low * exp (ln (high / low)) = high)%R).
  { rewrite exp_ln by Lra.lra. field. Lra.lra. }
  repeat split.
  - rewrite <- (Rmult_1_r low) at 1.
    apply Rmult_le_compat_l; [Lra.lra |].
    rewrite <- exp_0. apply exp_monotone.
    apply Rmult_le_pos; assumption.
  - rewrite <- Hhigh at 2.
    apply Rmult_le_compat_l; [Lra.lra |].
    apply exp_monotone.
    rewrite <- (Rmult_1_l (ln (high / low))) at 2.
    apply Rmult_le_compat_r; Lra.lra.
  - intros Hlt.
    assert (Hr' : (1 < high / low)%R).
    { apply (Rmult_lt_reg_r low); [assumption |].
      unfold Rdiv. rewrite Rmult_assoc, Rinv_l by Lra.lra. Lra.lra. }
    assert (Hln' : (0 < ln (high / low))%R).
    { rewrite <- ln_1. apply ln_increasing; Lra.lra. }
    rewrite <- Hhigh at 2.
    apply Rmult_lt_compat_l; [assumption |].
    apply exp_increasing.
    rewrite <- (Rmult_1_l (ln (high / low))) at 2.
    apply Rmult_lt_compat_r; Lra.lra.
Qed.


Lemma positive_and_ordered_samples_within (b : Bound * Bound) :
  positive_and_ordered b -> samples_within b.
Proof.
  assert (Hone : forall l h : Q, 0 < l /\ l < h ->
            forall unif : R, (0 <= unif < 1)%R ->
              (Q2R l <= _log_uniform_init_sample (Q2R l) (Q2R h) unif
               < Q2R h)%R).
  { intros l h [Hl Hlh] unif Hu.
    apply Qlt_Rlt in Hl, Hlh. rewrite RMicromega.Q2R_0 in Hl.
    destruct (@log_uniform_sample_bounds (Q2R l) (Q2R h) unif) as [Hin Hlt];
      [Lra.lra | assumption |].
    split; [apply Hin | now apply Hlt]. }
  destruct b as [[lo | lo] [hi | hi]]; simpl; try contradiction.
  - apply Hone.
  - intros H. induction H; constructor; auto.
Qed.

(** Decimal literals of [Q] are quotients by a power of ten; they are turned
    into fractions for linear arithmetic. *)
Lemma Qdiv_literal (a : Q) (z : positive) : a / (Zpos z # 1) == a * (1 # z).
Proof. unfold Qdiv, Qinv; simpl. reflexivity. Qed.

Ltac norm_literals :=
  repeat match goal with
    | |- context [Z.pow_pos ?a ?b] =>
        let v := eval vm_compute in (Z.pow_pos a b) in
        change (Z.pow_pos a b) with v
    | H : context [Z.pow_pos ?a ?b] |- _ =>
        let v := eval vm_compute in (Z.pow_pos a b) in
        change (Z.pow_pos a b) with v in H
    end;
  rewrite ?Qdiv_literal in *.

Lemma length_scale_domain_positive_and_ordered (eps : Q) (n : nat) :
  0 <= eps -> eps < 1e-10 ->
  positive_and_ordered (length_scale_domain eps n).
Proof.
  intros H0 H1.
  unfold length_scale_domain, positive_and_ordered, vshift, vscale, np_ones.
  induction n as [| n IH]; cbn [repeat map]; constructor; [| exact IH].
  split; (norm_literals; Lqa.lra).
Qed.

Lemma emitted_independent (self : VizierGaussianProcess)
    (inputs : option ModelInput) (d : Gen.driver ModelParameter Array) :
  Gen.emitted d (__call__ (with_multitask_type self INDEPENDENT) inputs) =
  base_schedule self.
Proof.
  rewrite emitted_call, base_schedule_with_multitask_type,
    nested_schedule_with_multitask_type.
  cbn [MultiTaskType_eqb negb]. rewrite andb_false_r. apply app_nil_r.
Qed.

Lemma base_schedule_constraints (self : VizierGaussianProcess)
    (p : ModelParameter) (c : Constraint) :
  In p (base_schedule self) -> constraint p = Some c ->
  (exists shp,
      init_fn p = _log_uniform_init (fst (bounds c)) (snd (bounds c)) shp) /\
  bijector c = soft_clip (bounds c) 1e-2 /\
  (0 <= _boundary_epsilon self -> _boundary_epsilon self < 1e-10 ->
   positive_and_ordered (bounds c)).
Proof.
  unfold base_schedule, kernel_declarations, linear_declarations,
    noise_declaration.
  intros Hin Hc.
  assert (Hcase :
    forall b shp reg nm,
      p = bounded_parameter b shp reg nm ->
      (0 <= _boundary_epsilon self -> _boundary_epsilon self < 1e-10 ->
       positive_and_ordered b) ->
      (exists shp,
          init_fn p = _log_uniform_init (fst (bounds c)) (snd (bounds c)) shp)
      /\ bijector c = soft_clip (bounds c) 1e-2 /\
      (0 <= _boundary_epsilon self -> _boundary_epsilon self < 1e-10 ->
       positive_and_ordered (bounds c))).
  { intros b shp reg nm -> Hb. simpl in Hc. injection Hc as <-. simpl.
    split; [now exists shp | split; [reflexivity | exact Hb]]. }
  assert (Hscalar : forall lo hi : Q, 1e-10 <= lo -> lo < hi ->
            0 <= _boundary_epsilon self -> _boundary_epsilon self < 1e-10 ->
            positive_and_ordered (widened (_boundary_epsilon self) lo hi)).
  { intros lo hi Hlo Hlh H0 H1. unfold widened, positive_and_ordered.
    split; (norm_literals; Lqa.lra). }
  cbn [In app] in Hin.
  destruct Hin as [<- | [<- | [<- | Hin]]].
  - eapply Hcase; [reflexivity |]. apply Hscalar; (norm_literals; Lqa.lra).
  - eapply Hcase; [reflexivity |].
    apply length_scale_domain_positive_and_ordered.
  - eapply Hcase; [reflexivity |].
    apply length_scale_domain_positive_and_ordered.
  - apply in_app_or in Hin. destruct Hin as [Hin | [<- | []]].
    + destruct (_linear_coef self); [| contradiction].
      cbn [In] in Hin.
      destruct Hin as [<- | [<- | [<- | []]]]; try discriminate.
      eapply Hcase; [reflexivity |]. apply Hscalar; (norm_literals; Lqa.lra).
    + eapply Hcase; [reflexivity |].
      apply Hscalar; (norm_literals; Lqa.lra).
Qed.

(** X2.  With [0 <= eps], every constrained declaration of the model itself
    has positive lower bounds below its upper bounds exactly when
    [eps < 1e-10]: from [1e-10] on, the lower bound of the observation noise
    is no longer positive. *)
Theorem declared_bounds_positive_iff (self : VizierGaussianProcess)
    (inputs : option ModelInput) (d : Gen.driver ModelParameter Array) :
  0 <= _boundary_epsilon self ->
  ((forall p c,
       In p (Gen.emitted d
               (__call__ (with_multitask_type self INDEPENDENT) inputs)) ->
       constraint p = Some c -> positive_and_ordered (bounds c))
   <-> _boundary_epsilon self < 1e-10).
Proof.
  intros H0. rewrite emitted_independent. split.
  - intros H.
    assert (Hnoise : positive_and_ordered
                       (widened (_boundary_epsilon self) 1e-10 1.0)).
    { apply (H (noise_declaration self)
               {| bounds := widened (_boundary_epsilon self) 1e-10 1.0;
                  bijector :=
                    soft_clip (widened (_boundary_epsilon self) 1e-10 1.0)
                      1e-2 |});
        [| reflexivity].
      unfold base_schedule. apply in_or_app; right.
      apply in_or_app; right. now left. }
    unfold widened, positive_and_ordered in Hnoise. norm_literals; Lqa.lra.
  - intros H1 p c Hin Hc.
    now apply (base_schedule_constraints Hin Hc).
Qed.


(** ** Names, and where the values sent end up *)

Lemma emitted_without_nested (self : VizierGaussianProcess)
    (inputs : option ModelInput) (d : Gen.driver ModelParameter Array) :
  runs_nested self = false ->
  Gen.emitted d (__call__ self inputs) = base_schedule self.
Proof.
  intros H. rewrite emitted_call. unfold nested_schedule.
  unfold runs_nested in H. rewrite H. apply app_nil_r.
Qed.

(** X4.  When no nested run takes place (at most one metric, or the
    INDEPENDENT type), no two declarations of a run have the same name. *)
Theorem declared_names_distinct (self : VizierGaussianProcess)
    (inputs : option ModelInput) (d : Gen.driver ModelParameter Array) :
  runs_nested self = false ->
  NoDup (names (Gen.emitted d (__call__ self inputs))).
Proof.
  intros H. rewrite (emitted_without_nested self inputs d H).
  rewrite names_base_schedule.
  destruct (has_linear_term self); cbn [app];
    repeat (constructor; [cbn [In]; intuition discriminate |]);
    constructor.
Qed.

(** X5.  Each value the driver sends is used for the parameter it was
    declared for: the amplitude is the square root of the value sent for
    [signal_variance], the feature scales are the square roots of the values
    sent for the two length scales, the noise variance is the value sent for
    [observation_noise_variance]; with a linear coefficient [c] the slope
    amplitude, shift and mean constant are [c] times the values sent for
    [linear_slope_amplitude], [linear_shift] and [mean_fn], and the linear
    kernel is scaled by the continuous length scale; without one there is no
    mean function. *)
Theorem sent_values_reach_their_parameters (self : VizierGaussianProcess)
    (inputs : option ModelInput) (d : Gen.driver ModelParameter Array) :
  let ps := Gen.emitted d (__call__ self inputs) in
  let D := Gen.result d (__call__ self inputs) in
  exists signal_variance continuous_ls categorical_ls noise,
    value_sent d ps "signal_variance" = Some signal_variance /\
    value_sent d ps "continuous_length_scale_squared" = Some continuous_ls /\
    value_sent d ps "categorical_length_scale_squared" = Some categorical_ls /\
    value_sent d ps "observation_noise_variance" = Some noise /\
    observation_noise_variance_of D = sent noise /\
    let matern :=
      FeatureScaledWithCategorical
        (MaternFiveHalves (jnp_sqrt (sent signal_variance)))
        {| continuous := jnp_sqrt (sent continuous_ls);
           categorical := jnp_sqrt (sent categorical_ls) |} in
    match _linear_coef self with
    | None =>
        unmasked (feature_kernel D) = matern /\ mean_fn_of D = None
    | Some c =>
        exists slopes shift mean,
          value_sent d ps "linear_slope_amplitude" = Some slopes /\
          value_sent d ps "linear_shift" = Some shift /\
          value_sent d ps "mean_fn" = Some mean /\
          unmasked (feature_kernel D) =
            SumKernel matern
              (ContinuousOnly
                 (FeatureScaled
                    (Linear (times c (sent slopes)) (times c (sent shift)))
                    (jnp_sqrt (sent continuous_ls)))) /\
          mean_fn_of D = Some {| constant := times c (sent mean) |}
    end.
Proof.
  intros ps D. subst ps D.
  rewrite emitted_call.
  unfold __call__, base_schedule, kernel_declarations, linear_declarations,
    noise_declaration.
  destruct self as [dim nm chol eps lin mt];
    cbn [_linear_coef _num_metrics _multitask_type _boundary_epsilon _dim
         _use_retrying_cholesky].
  destruct lin as [c |], inputs as [x |],
    (nm >? 1)%Z, (MultiTaskType_eqb mt INDEPENDENT);
    simpl; step_call; unfold Gen.result; simpl;
    repeat (first [reflexivity | eexists | split]).
Qed.

(** X6.  With inputs the kernel is masked with the per-dimension masks of the
    inputs and the index points are their padded arrays; without inputs the
    kernel is not masked and the distribution has no index points, hence
    neither an event shape nor a log-density. *)
Theorem inputs_decide_mask_and_index_points (self : VizierGaussianProcess)
    (inputs : option ModelInput) (d : Gen.driver ModelParameter Array)
    (y : Labels) :
  let D := Gen.result d (__call__ self inputs) in
  match inputs with
  | Some x =>
      feature_kernel D =
        MaskFeatures (unmasked (feature_kernel D))
          {| continuous := snd (is_missing (continuous x));
             categorical := snd (is_missing (categorical x)) |} /\
      index_points_of D =
        Some {| continuous := padded_array (continuous x);
                categorical := padded_array (categorical x) |}
  | None =>
      feature_kernel D = unmasked (feature_kernel D) /\
      index_points_of D = None /\
      event_shape D = None /\
      log_prob D y = None
  end.
Proof.
  unfold __call__.
  destruct self as [dim nm chol eps lin mt]; simpl.
  destruct lin as [c |], inputs as [x |],
    (nm >? 1)%Z, (MultiTaskType_eqb mt INDEPENDENT);
    simpl; step_call; unfold Gen.result; simpl; auto.
Qed.

End Model.

(** * The statements on the sample data *)

Example sample_schedule :
  names
    (Gen.emitted (sample_driver 1)
       (__call__ sample_task_kernel_scale_linop sample_self
          (Some (sample_inputs 3 4)))) =
  ["signal_variance"; "continuous_length_scale_squared";
   "categorical_length_scale_squared"; "linear_slope_amplitude";
   "linear_shift"; "mean_fn"; "observation_noise_variance";
   "task_kernel_scale"].
Proof. reflexivity. Qed.

Lemma declaration_schedule_deterministic_witness :
  names
    (Gen.emitted (sample_driver 1)
       (__call__ sample_task_kernel_scale_linop sample_self
          (Some (sample_inputs 3 4)))) =
  names
    (Gen.emitted (sample_driver 7)
       (__call__ sample_task_kernel_scale_linop sample_self' None)).
Proof.
  apply (@declaration_schedule_deterministic
           Q unit sample_task_kernel_scale_linop);
    reflexivity.
Defined.

Lemma event_shape_selection_witness :
  (_num_metrics sample_single = 1%Z /\
   event_shape
     (Gen.result (sample_driver 1)
        (__call__ sample_task_kernel_scale_linop sample_single
           (Some (sample_inputs 3 4)))) = Some [2%Z]) /\
  ((_num_metrics sample_self > 1)%Z /\
   event_shape
     (Gen.result (sample_driver 1)
        (__call__ sample_task_kernel_scale_linop sample_self
           (Some (sample_inputs 3 4)))) = Some [2%Z; 3%Z]).
Proof.
  split; (split; [reflexivity |]).
  - exact (proj2 (proj1 (@event_shape_selection
                           Q unit sample_task_kernel_scale_linop sample_single
                           (sample_inputs 3 4) (sample_driver 1)) eq_refl)).
  - exact (proj2 (proj2 (@event_shape_selection
                           Q unit sample_task_kernel_scale_linop sample_self
                           (sample_inputs 3 4) (sample_driver 1)) eq_refl)).
Defined.

Lemma sample_task_kernel_scale_linop_emits n v
    (d : Gen.driver ModelParameter Q) :
  Gen.emitted d (sample_task_kernel_scale_linop n (SEPARABLE v)) <> [].
Proof. discriminate. Qed.

Lemma multitask_declarations_witness :
  (_num_metrics sample_self > 1)%Z /\
  Gen.emitted (sample_driver 1)
    (__call__ sample_task_kernel_scale_linop
       (with_multitask_type sample_self INDEPENDENT) None) =
  base_schedule sample_self /\
  (List.length
     (Gen.emitted (sample_driver 1)
        (__call__ sample_task_kernel_scale_linop
           (with_multitask_type sample_self INDEPENDENT) None)) <
   List.length
     (Gen.emitted (sample_driver 7)
        (__call__ sample_task_kernel_scale_linop
           (with_multitask_type sample_self (SEPARABLE 0)) None)))%nat.
Proof.
  assert (Hnm : (_num_metrics sample_self > 1)%Z) by reflexivity.
  destruct (multitask_declarations sample_task_kernel_scale_linop
              sample_task_kernel_scale_linop_emits sample_self None
              (sample_driver 1) Hnm) as (Hindep & _ & Hsep).
  split; [exact Hnm |].
  split; [exact Hindep |].
  exact (proj2 (Hsep 0%nat (sample_driver 7))).
Defined.

Lemma sample_inputs_differ_only_where_missing :
  differ_only_where_missing
    (continuous (sample_inputs 3 4)) (continuous (sample_inputs 5 6)) /\
  differ_only_where_missing
    (categorical (sample_inputs 3 4)) (categorical (sample_inputs 5 6)).
Proof.
  split; (split; [reflexivity |]); (split; [reflexivity |]); simpl;
    repeat constructor;
    intros [| [| i]] Hi; try reflexivity; discriminate.
Qed.

Lemma masked_dimensions_noninterference_witness :
  log_prob (@sample_apply (Kernel Q))
    (@sample_gp_log_prob (Expr Q) (option CholeskyFn) (option (Expr Q)))
    (@sample_mtgp_log_prob (Expr Q) (option CholeskyFn) (option (Expr Q))
       (option unit))
    (Gen.result (sample_driver 1)
       (__call__ sample_task_kernel_scale_linop sample_self
          (Some (sample_inputs 3 4)))) tt =
  log_prob (@sample_apply (Kernel Q))
    (@sample_gp_log_prob (Expr Q) (option CholeskyFn) (option (Expr Q)))
    (@sample_mtgp_log_prob (Expr Q) (option CholeskyFn) (option (Expr Q))
       (option unit))
    (Gen.result (sample_driver 1)
       (__call__ sample_task_kernel_scale_linop sample_self
          (Some (sample_inputs 5 6)))) tt.
Proof.
  exact (proj1 (masked_dimensions_noninterference
                  sample_task_kernel_scale_linop
                  (@sample_apply (Kernel Q))
                  (@sample_gp_log_prob _ _ _) (@sample_mtgp_log_prob _ _ _ _)
                  sample_self (sample_inputs 3 4) (sample_inputs 5 6)
                  (sample_driver 1) tt
                  (proj1 sample_inputs_differ_only_where_missing)
                  (proj2 sample_inputs_differ_only_where_missing))).
Defined.

(** On the sample the log-density is [3], and the rows, were they not
    masked, would give the stand-in kernel different values. *)
Example sample_log_prob_value :
  match
    log_prob (@sample_apply (Kernel Q))
      (@sample_gp_log_prob (Expr Q) (option CholeskyFn) (option (Expr Q)))
      (@sample_mtgp_log_prob (Expr Q) (option CholeskyFn) (option (Expr Q))
         (option unit))
      (Gen.result (sample_driver 1)
         (__call__ sample_task_kernel_scale_linop sample_self
            (Some (sample_inputs 3 4)))) tt
  with
  | Some p => p == 3
  | None => False
  end /\
  ~ sample_apply tt
      {| continuous := [0.25; 3]; categorical := [1%Z] |}
      {| continuous := [0.25; 3]; categorical := [1%Z] |} ==
    sample_apply tt
      {| continuous := [0.25; 5]; categorical := [1%Z] |}
      {| continuous := [0.25; 5]; categorical := [1%Z] |}.
Proof. split; vm_compute; [reflexivity | discriminate]. Qed.

Lemma multitask_type_irrelevant_for_one_metric_witness :
  _num_metrics sample_single = 1%Z /\
  __call__ sample_task_kernel_scale_linop
    (with_multitask_type sample_single (SEPARABLE 0))
    (Some (sample_inputs 3 4)) =
  __call__ sample_task_kernel_scale_linop
    (with_multitask_type sample_single INDEPENDENT)
    (Some (sample_inputs 3 4)).
Proof.
  split; [reflexivity |].
  exact (proj1 (multitask_type_irrelevant_for_one_metric
                  sample_task_kernel_scale_linop sample_single
                  (Some (sample_inputs 3 4)) eq_refl
                  (SEPARABLE 0) INDEPENDENT)).
Defined.

(** * Seeding a policy with the default: [suggest_default] *)

Section suggest_default_facts.

Import suggest_default.

Variables SearchSpace ParameterDict MetadataDelta Policy Error : Type.
Variable get_default_parameters : SearchSpace -> ParameterDict.
Variable no_metadata : MetadataDelta.

Local Abbreviation SuggestFn :=
  (SuggestFn SearchSpace ParameterDict MetadataDelta Policy Error).
Local Abbreviation wrapper_fn := (wrapper_fn get_default_parameters no_metadata).
Local Abbreviation default_of request :=
  {| parameters :=
       get_default_parameters
         (search_space (config (_study_descriptor request))) |}.

Lemma wrapper_fn_started (f : SuggestFn) self request :
  (max_trial_id (_study_descriptor request) > 0)%Z ->
  wrapper_fn f self request = f self request.
Proof.
  intros H. unfold suggest_default.wrapper_fn.
  apply Z.gt_lt, Z.gtb_lt in H. now rewrite H.
Qed.

Lemma wrapper_fn_empty (f : SuggestFn) self request :
  (max_trial_id (_study_descriptor request) <= 0)%Z ->
  wrapper_fn f self request =
  if (count request >? 1)%Z then
    match f self (evolve_count request (count request - 1)) with
    | (self', inr more) =>
        (self',
         inr {| suggestions := default_of request :: suggestions more;
                metadata := metadata more |})
    | (self', inl e) => (self', inl e)
    end
  else
    (self,
     inr {| suggestions := [default_of request]; metadata := no_metadata |}).
Proof.
  intros H. unfold suggest_default.wrapper_fn.
  destruct (Z.gtb_spec (max_trial_id (_study_descriptor request)) 0);
    [lia | reflexivity].
Qed.

(** X7.  On a study with trials the wrapper is the wrapped function.  On an
    empty study the wrapped function is consulted at most on the request with
    the count lowered by one: two functions that agree there give the same
    outcome. *)
Theorem requests_reaching_suggest_fn (f : SuggestFn) self request :
  ((max_trial_id (_study_descriptor request) > 0)%Z ->
   wrapper_fn f self request = f self request) /\
  ((max_trial_id (_study_descriptor request) <= 0)%Z ->
   forall g : SuggestFn,
     g self (evolve_count request (count request - 1)) =
     f self (evolve_count request (count request - 1)) ->
     wrapper_fn g self request = wrapper_fn f self request).
Proof.
  split.
  - apply wrapper_fn_started.
  - intros H g Hg. rewrite !wrapper_fn_empty by assumption. now rewrite Hg.
Qed.


(** X9.  On an empty study, a decision of the wrapper starts with the
    default; for a count above one the rest and the metadata are those of the
    wrapped function on the request with the count lowered by one and the
    same study descriptor, and the wrapper raises exactly when that call
    raises, with the same error. *)
Theorem empty_study_decision (f : SuggestFn) self request self' :
  (max_trial_id (_study_descriptor request) <= 0)%Z ->
  (forall decision,
      wrapper_fn f self request = (self', inr decision) ->
      exists more,
        suggestions decision = default_of request :: more /\
        ((count request > 1)%Z ->
         exists inner,
           f self (evolve_count request (count request - 1)) =
             (self', inr inner) /\
           _study_descriptor (evolve_count request (count request - 1)) =
             _study_descriptor request /\
           more = suggestions inner /\
           metadata decision = metadata inner)) /\
  (forall e,
      wrapper_fn f self request = (self', inl e) <->
      (count request > 1)%Z /\
      f self (evolve_count request (count request - 1)) = (self', inl e)).
Proof.
  intros H. rewrite wrapper_fn_empty by assumption.
  destruct (Z.gtb_spec (count request) 1) as [Hc | Hc].
  - destruct (f self (evolve_count request (count request - 1)))
      as [s [e0 | inner]].
    + split.
      * intros decision Heq. discriminate.
      * intros e. split.
        -- intros Heq. injection Heq as -> ->. split; [lia | reflexivity].
        -- intros [_ Heq]. exact Heq.
    + split.
      * intros decision Heq. injection Heq as -> <-.
        exists (suggestions inner). split; [reflexivity |].
        intros _. exists inner. repeat split.
      * intros e. split; [discriminate | intros [_ Heq]; discriminate].
  - split.
    + intros decision Heq. injection Heq as -> <-.
      exists []. split; [reflexivity | lia].
    + intros e. split; [discriminate | lia].
Qed.

(** X10.  If the wrapped function returns exactly as many suggestions as the
    request counts, so does the wrapper for every count of at least one; the
    same holds for at most as many. *)
Theorem wrapper_keeps_the_count (f : SuggestFn) :
  ((forall self request self' decision,
       f self request = (self', inr decision) ->
       List.length (suggestions decision) = Z.to_nat (count request)) ->
   forall self request self' decision,
     (count request >= 1)%Z ->
     wrapper_fn f self request = (self', inr decision) ->
     List.length (suggestions decision) = Z.to_nat (count request)) /\
  ((forall self request self' decision,
       f self request = (self', inr decision) ->
       (List.length (suggestions decision) <= Z.to_nat (count request))%nat) ->
   forall self request self' decision,
     (count request >= 1)%Z ->
     wrapper_fn f self request = (self', inr decision) ->
     (List.length (suggestions decision) <= Z.to_nat (count request))%nat).
Proof.
  split; intros Hf self request self' decision Hc;
    (destruct (Z.gtb_spec (max_trial_id (_study_descriptor request)) 0)
      as [Hm | Hm];
     [ rewrite wrapper_fn_started by lia; apply Hf
     | rewrite wrapper_fn_empty by assumption;
       destruct (Z.gtb_spec (count request) 1) as [Hc1 | Hc1];
       [ destruct (f self (evolve_count request (count request - 1)))
           as [s [e0 | inner]] eqn:Hinner; [discriminate |];
         intros Heq; injection Heq as -> <-;
         apply Hf in Hinner; cbn [suggestions count evolve_count] in *;
         cbn [List.length]; lia
       | intros Heq; injection Heq as -> <-;
         cbn [suggestions List.length]; lia ] ]).
Qed.

(** X11.  The decorator is not idempotent: decorated twice, a policy on an
    empty study asked for two or more suggestions returns the default
    twice. *)
Theorem double_decoration_repeats_default (f : SuggestFn) self request self'
    decision :
  (max_trial_id (_study_descriptor request) <= 0)%Z ->
  (count request >= 2)%Z ->
  wrapper_fn (wrapper_fn f) self request = (self', inr decision) ->
  exists more,
    suggestions decision =
    default_of request :: default_of request :: more.
Proof.
  intros Hm Hc.
  rewrite wrapper_fn_empty by assumption.
  destruct (Z.gtb_spec (count request) 1) as [_ | ?]; [| lia].
  rewrite wrapper_fn_empty by assumption.
  cbn [count evolve_count _study_descriptor].
  destruct (count request - 1 >? 1)%Z.
  - destruct (f self _) as [s [e0 | inner]]; [discriminate |].
    intros Heq. injection Heq as -> <-. now eexists.
  - intros Heq. injection Heq as -> <-. now eexists.
Qed.

End suggest_default_facts.

(** * Running an algorithm with random metrics: [test_runners] *)

Section test_runners_facts.

Import test_runners.

Variables SearchSpace ParameterDict Trial RandomState Seed Algorithm Error
  : Type.
Variable RandomState_of : Seed -> RandomState.
Variable uniform : RandomState -> Q -> Q -> Q * RandomState.
Variable assert_contains : SearchSpace -> ParameterDict -> option Error.
Variable parameters : Trial -> ParameterDict.
Variable complete : Trial -> Measurement -> Trial.
Variable suggest : Algorithm -> option Z -> list Trial * Algorithm.
Variable AddTrials : Algorithm -> list Trial -> Algorithm.
Variable GetTrials : Algorithm -> list Trial.

Local Abbreviation Runner := (RandomMetricsRunner SearchSpace Seed).
Local Abbreviation _run_metrics := (_run_metrics uniform).
Local Abbreviation _run_suggestions :=
  (_run_suggestions uniform assert_contains parameters complete).
Local Abbreviation _run_iterations :=
  (_run_iterations uniform assert_contains parameters complete suggest
     AddTrials).
Local Abbreviation _run :=
  (_run RandomState_of uniform assert_contains parameters complete suggest
     AddTrials GetTrials).
Local Abbreviation low_of mi := (min_value_or mi (fun _ => -10)).
Local Abbreviation high_of mi := (max_value_or mi (fun _ => 10)).

Lemma dict_get_set_same (k : string) (v : Q) (d : list (string * Q)) :
  dict_get k (dict_set k v d) = Some v.
Proof.
  induction d as [| [k' v'] d IH]; simpl.
  - now rewrite String.eqb_refl.
  - destruct (String.eqb k' k) eqn:E; simpl; rewrite E; [reflexivity | exact IH].
Qed.

Lemma dict_get_set_other (k k' : string) (v : Q) (d : list (string * Q)) :
  k <> k' -> dict_get k' (dict_set k v d) = dict_get k' d.
Proof.
  intros Hne.
  induction d as [| [k0 v0] d IH]; simpl.
  - destruct (String.eqb_spec k k'); [contradiction | reflexivity].
  - destruct (String.eqb_spec k0 k) as [-> | Hk0]; simpl.
    + destruct (String.eqb_spec k k'); [contradiction | reflexivity].
    + destruct (String.eqb_spec k0 k'); [reflexivity | exact IH].
Qed.

Lemma _run_metrics_spec (mis : list MetricInformation) :
  forall (m0 : Measurement) (rng : RandomState),
    let m := fst (_run_metrics mis m0 rng) in
    (forall k,
        dict_get k (metrics m0) <> None \/ (exists mi, In mi mis /\ name mi = k)
        -> dict_get k (metrics m) <> None) /\
    ((forall rng lo hi, lo <= hi -> lo <= fst (uniform rng lo hi) <= hi) ->
     Forall (fun mi => low_of mi <= high_of mi) mis ->
     forall k v,
       dict_get k (metrics m) = Some v ->
       dict_get k (metrics m0) = Some v \/
       exists mi, In mi mis /\ name mi = k /\ low_of mi <= v <= high_of mi).
Proof.
  induction mis as [| mi mis IH]; intros m0 rng; simpl.
  - split.
    + intros k [H | (mi & [] & _)]. exact H.
    + intros _ _ k v H. now left.
  - destruct (uniform rng (low_of mi) (high_of mi)) as [v0 rng'] eqn:Hu.
    specialize (IH {| metrics := dict_set (name mi) v0 (metrics m0) |} rng').
    simpl in IH. destruct IH as [IHk IHv].
    split.
    + intros k Hk. apply IHk.
      destruct (string_dec (name mi) k) as [<- | Hne].
      * left. rewrite dict_get_set_same. discriminate.
      * rewrite (dict_get_set_other _ _ Hne).
        destruct Hk as [Hk | (mi' & [<- | Hin] & Hname)].
        -- now left.
        -- contradiction.
        -- right. now exists mi'.
    + intros Huniform Hord k v Hget.
      inversion Hord as [| ? ? Hmi Hmis]; subst.
      destruct (IHv Huniform Hmis k v Hget) as [H0 | (mi' & Hin & Hname & Hv)].
      * destruct (string_dec (name mi) k) as [<- | Hne].
        -- rewrite dict_get_set_same in H0. injection H0 as <-.
           right. exists mi. split; [now left | split; [reflexivity |]].
           specialize (Huniform rng _ _ Hmi). now rewrite Hu in Huniform.
        -- rewrite (dict_get_set_other _ _ Hne) in H0. now left.
      * right. exists mi'. split; [now right | now split].
Qed.


Lemma _run_suggestions_spec (self : Runner) (suggestions : list Trial) :
  forall (trials : list Trial) (rng : RandomState) out rng',
    _run_suggestions self suggestions trials rng = (inr out, rng') ->
    exists completed,
      out = trials ++ completed /\
      Forall2
        (fun suggestion trial =>
           exists measurement,
             trial = complete suggestion measurement /\
             forall mi, In mi (metric_information (problem self)) ->
                        dict_get (name mi) (metrics measurement) <> None)
        suggestions completed.
Proof.
  induction suggestions as [| s ss IH]; intros trials rng out rng'; simpl.
  - intros Heq. injection Heq as <- _. exists []. now rewrite app_nil_r.
  - destruct (if validate_parameters self
              then assert_contains (search_space (problem self)) (parameters s)
              else None); [discriminate |].
    destruct (_run_metrics (metric_information (problem self))
                {| metrics := [] |} rng) as [m rng1] eqn:Hm.
    intros Heq. apply IH in Heq. destruct Heq as (completed & -> & Hall).
    exists (complete s m :: completed). split.
    + now rewrite <- app_assoc.
    + constructor; [| exact Hall].
      exists m. split; [reflexivity |].
      intros mi Hin.
      destruct (_run_metrics_spec (metric_information (problem self))
                  {| metrics := [] |} rng) as [Hk _].
      rewrite Hm in Hk. apply Hk. right. now exists mi.
Qed.

(** X13.  A batch that is completed without error yields one trial per
    suggestion, in the order of the suggestions: each is the suggestion
    completed with a measurement that has a value for every metric of the
    problem. *)
Theorem batch_completes_every_suggestion (self : Runner)
    (suggestions : list Trial) (rng rng' : RandomState) (trials : list Trial) :
  _run_suggestions self suggestions [] rng = (inr trials, rng') ->
  Forall2
    (fun suggestion trial =>
       exists measurement,
         trial = complete suggestion measurement /\
         forall mi, In mi (metric_information (problem self)) ->
                    dict_get (name mi) (metrics measurement) <> None)
    suggestions trials.
Proof.
  intros H. apply _run_suggestions_spec in H.
  now destruct H as (completed & -> & Hall).
Qed.

Lemma _run_suggestions_unvalidated (self : Runner) (suggestions : list Trial) :
  validate_parameters self = false ->
  forall trials rng,
    exists out rng', _run_suggestions self suggestions trials rng = (inr out, rng').
Proof.
  intros Hv. induction suggestions as [| s ss IH]; intros trials rng; simpl.
  - now eexists _, _.
  - rewrite Hv.
    destruct (_run_metrics (metric_information (problem self))
                {| metrics := [] |} rng) as [m rng1].
    apply IH.
Qed.

Lemma _run_iterations_unvalidated (self : Runner) (left : nat) :
  validate_parameters self = false ->
  forall rng algorithm,
    exists algorithm',
      _run_iterations self left rng algorithm = (inr tt, algorithm').
Proof.
  intros Hv. induction left as [| left IH]; intros rng algorithm; simpl.
  - now eexists.
  - destruct (suggest algorithm (batch_size self)) as [[| s ss] algorithm1].
    + now eexists.
    + destruct (_run_suggestions_unvalidated self (s :: ss) Hv [] rng)
        as (out & rng' & ->).
      apply IH.
Qed.

(** X14.  Without validation of the parameters the runner does not raise: it
    returns the trials the supporter holds at the end. *)
Theorem unvalidated_run_returns (self : Runner) (algorithm : Algorithm) :
  validate_parameters self = false ->
  exists algorithm',
    _run self algorithm = (inr (GetTrials algorithm'), algorithm').
Proof.
  intros Hv. unfold test_runners._run.
  destruct (_run_iterations_unvalidated self (Z.to_nat (iters self)) Hv
              (RandomState_of (seed self)) algorithm) as (algorithm' & ->).
  now exists algorithm'.
Qed.

(** X15.  With no iteration to run (a count of zero or below) the runner
    returns the supporter's trials without asking for a suggestion; when the
    first call to [suggest] returns nothing, the runner stops there, whatever
    the number of iterations, and adds no trial. *)
Theorem run_stops_without_suggestions (self : Runner) (algorithm : Algorithm) :
  ((iters self <= 0)%Z ->
   _run self algorithm = (inr (GetTrials algorithm), algorithm)) /\
  (forall algorithm',
      (iters self >= 1)%Z ->
      suggest algorithm (batch_size self) = ([], algorithm') ->
      _run self algorithm = (inr (GetTrials algorithm'), algorithm')).
Proof.
  unfold test_runners._run. split.
  - intros H. replace (Z.to_nat (iters self)) with 0%nat by lia. reflexivity.
  - intros algorithm' H Hs.
    destruct (Z.to_nat (iters self)) as [| n] eqn:Hn; [lia |].
    simpl. now rewrite Hs.
Qed.

Lemma _run_suggestions_invalid (self : Runner) (before : list Trial)
    (suggestion : Trial) (after : list Trial) (e : Error) :
  validate_parameters self = true ->
  (forall s, In s before ->
     assert_contains (search_space (problem self)) (parameters s) = None) ->
  assert_contains (search_space (problem self)) (parameters suggestion)
    = Some e ->
  forall trials rng,
    exists rng',
      _run_suggestions self (before ++ suggestion :: after) trials rng =
      (inl e, rng').
Proof.
  intros Hv Hbefore Hbad.
  induction before as [| s before IH]; intros trials rng; simpl.
  - rewrite Hv, Hbad. now eexists.
  - rewrite Hv, (Hbefore s) by now left.
    destruct (_run_metrics (metric_information (problem self))
                {| metrics := [] |} rng) as [m rng1].
    apply IH. intros s0 Hin. apply Hbefore. now right.
Qed.

(** X16.  With validation, when the first batch holds a suggestion outside
    the search space, the runner raises the error of the first such
    suggestion and adds none of the batch's trials: the algorithm is left as
    [suggest] left it. *)
Theorem invalid_suggestion_aborts_run (self : Runner) (algorithm : Algorithm)
    (before : list Trial) (suggestion : Trial) (after : list Trial)
    (e : Error) (algorithm' : Algorithm) :
  validate_parameters self = true ->
  (iters self >= 1)%Z ->
  suggest algorithm (batch_size self) =
    (before ++ suggestion :: after, algorithm') ->
  (forall s, In s before ->
     assert_contains (search_space (problem self)) (parameters s) = None) ->
  assert_contains (search_space (problem self)) (parameters suggestion)
    = Some e ->
  _run self algorithm = (inl e, algorithm').
Proof.
  intros Hv Hit Hs Hbefore Hbad. unfold test_runners._run.
  destruct (Z.to_nat (iters self)) as [| n] eqn:Hn; [lia |].
  simpl. rewrite Hs.
  destruct (@_run_suggestions_invalid self before suggestion after e Hv
              Hbefore Hbad [] (RandomState_of (seed self))) as (rng' & Heq).
  destruct (before ++ suggestion :: after) as [| s0 ss] eqn:Hl.
  - now destruct before.
  - now rewrite Heq.
Qed.

End test_runners_facts.

(** * The further statements on sample data *)


Lemma declared_bounds_positive_iff_witness :
  0 <= _boundary_epsilon sample_self /\
  positive_and_ordered (Scalar (1e-10 - 1e-12), Scalar (1.0 + 1e-12)).
Proof.
  assert (H0 : 0 <= _boundary_epsilon sample_self) by (vm_compute; discriminate).
  split; [exact H0 |].
  refine (proj2 (declared_bounds_positive_iff
                   sample_task_kernel_scale_linop sample_self None
                   (sample_driver 1) H0) _
            (bounded_parameter (Scalar (1e-10 - 1e-12), Scalar (1.0 + 1e-12))
               [] (log_quadratic 0.01 0.0039) "observation_noise_variance")
            {| bounds := (Scalar (1e-10 - 1e-12), Scalar (1.0 + 1e-12));
               bijector :=
                 soft_clip (Scalar (1e-10 - 1e-12), Scalar (1.0 + 1e-12))
                   1e-2 |} _ eq_refl).
  - vm_compute; reflexivity.
  - do 6 right. left. reflexivity.
Defined.


Lemma declared_names_distinct_witness :
  NoDup
    (names
       (Gen.emitted (sample_driver 1)
          (__call__ sample_task_kernel_scale_linop sample_single
             (Some (sample_inputs 3 4))))).
Proof.
  apply (@declared_names_distinct Q unit sample_task_kernel_scale_linop).
  reflexivity.
Defined.

(** The request of the test: three suggestions for the empty study. *)
Lemma requests_reaching_suggest_fn_witness :
  suggest_default.wrapper_fn suggest_default.fake_default tt
    (fun self request =>
       if (suggest_default.count request =? 0)%Z
       then suggest_default.fake_suggest self request
       else (self, inl "different elsewhere"))
    tt
    {| suggest_default._study_descriptor :=
         suggest_default.empty_study_descriptor;
       suggest_default.count := 1 |} =
  suggest_default.wrapper_fn suggest_default.fake_default tt
    suggest_default.fake_suggest tt
    {| suggest_default._study_descriptor :=
         suggest_default.empty_study_descriptor;
       suggest_default.count := 1 |}.
Proof.
  refine (proj2 (requests_reaching_suggest_fn suggest_default.fake_default tt
                   suggest_default.fake_suggest tt
                   {| suggest_default._study_descriptor :=
                        suggest_default.empty_study_descriptor;
                      suggest_default.count := 1 |}) _ _ _).
  - simpl; lia.
  - reflexivity.
Defined.


Lemma empty_study_decision_witness :
  exists more,
    [{| suggest_default.parameters := 500%Z |};
     {| suggest_default.parameters := 999%Z |};
     {| suggest_default.parameters := 1000%Z |}] =
    {| suggest_default.parameters := 500%Z |} :: more.
Proof.
  assert (H : (suggest_default.max_trial_id
                 suggest_default.empty_study_descriptor <= 0)%Z)
    by (simpl; lia).
  destruct (proj1 (empty_study_decision suggest_default.fake_default tt
                     suggest_default.fake_suggest tt
                     {| suggest_default._study_descriptor :=
                          suggest_default.empty_study_descriptor;
                        suggest_default.count := 3 |} tt H)
              {| suggest_default.suggestions :=
                   [{| suggest_default.parameters := 500%Z |};
                    {| suggest_default.parameters := 999%Z |};
                    {| suggest_default.parameters := 1000%Z |}];
                 suggest_default.metadata := tt |} eq_refl)
    as (more & Hmore & _).
  exists more. exact Hmore.
Defined.

Lemma fake_suggest_keeps_the_count self request self' decision :
  suggest_default.fake_suggest self request = (self', inr decision) ->
  List.length (suggest_default.suggestions decision) =
  Z.to_nat (suggest_default.count request).
Proof.
  unfold suggest_default.fake_suggest.
  destruct (Z.eqb_spec (suggest_default.count request) 2) as [-> | ?];
    simpl; [| discriminate].
  destruct (negb _); [discriminate |].
  intros H. injection H as _ <-. reflexivity.
Qed.

Lemma wrapper_keeps_the_count_witness :
  List.length
    [{| suggest_default.parameters := 500%Z |};
     {| suggest_default.parameters := 999%Z |};
     {| suggest_default.parameters := 1000%Z |}] = 3%nat.
Proof.
  refine (proj1 (wrapper_keeps_the_count suggest_default.fake_default tt
                   suggest_default.fake_suggest)
            fake_suggest_keeps_the_count tt
            {| suggest_default._study_descriptor :=
                 suggest_default.empty_study_descriptor;
               suggest_default.count := 3 |} tt
            {| suggest_default.suggestions :=
                 [{| suggest_default.parameters := 500%Z |};
                  {| suggest_default.parameters := 999%Z |};
                  {| suggest_default.parameters := 1000%Z |}];
               suggest_default.metadata := tt |} _ eq_refl).
  simpl; lia.
Defined.

Lemma double_decoration_repeats_default_witness :
  exists more,
    [{| suggest_default.parameters := 500%Z |};
     {| suggest_default.parameters := 500%Z |};
     {| suggest_default.parameters := 999%Z |};
     {| suggest_default.parameters := 1000%Z |}] =
    {| suggest_default.parameters := 500%Z |}
    :: {| suggest_default.parameters := 500%Z |} :: more.
Proof.
  refine (@double_decoration_repeats_default
            unit Z unit unit string suggest_default.fake_default tt
            suggest_default.fake_suggest tt
            {| suggest_default._study_descriptor :=
                 suggest_default.empty_study_descriptor;
               suggest_default.count := 4 |} tt
            {| suggest_default.suggestions :=
                 [{| suggest_default.parameters := 500%Z |};
                  {| suggest_default.parameters := 500%Z |};
                  {| suggest_default.parameters := 999%Z |};
                  {| suggest_default.parameters := 1000%Z |}];
               suggest_default.metadata := tt |} _ _ eq_refl);
    simpl; lia.
Defined.

(** The test of the decorator: asked for three suggestions on the empty
    study, the decorated policy is called for two and the default comes
    first; the bound form gives the same function. *)
Example test_decorator :
  suggest_default.wrapper_fn suggest_default.fake_default tt
    suggest_default.fake_suggest tt
    {| suggest_default._study_descriptor :=
         suggest_default.empty_study_descriptor;
       suggest_default.count := 3 |} =
  (tt,
   inr {| suggest_default.suggestions :=
            [{| suggest_default.parameters := 500%Z |};
             {| suggest_default.parameters := 999%Z |};
             {| suggest_default.parameters := 1000%Z |}];
          suggest_default.metadata := tt |}) /\
  suggest_default.seed_with_default suggest_default.fake_default tt
    (suggest_default.bound_method suggest_default.fake_suggest tt) =
  suggest_default.bound_method
    (suggest_default.wrapper_fn suggest_default.fake_default tt
       suggest_default.fake_suggest) tt.
Proof. split; reflexivity. Qed.

Lemma sample_uniform_between (rng : nat) (lo hi : Q) :
  lo <= hi -> lo <= fst (test_runners.sample_uniform rng lo hi) <= hi.
Proof. intros H. split; [apply Qle_refl | exact H]. Qed.


Lemma batch_completes_every_suggestion_witness :
  Forall2
    (fun suggestion trial =>
       exists measurement,
         trial = test_runners.sample_complete suggestion measurement /\
         forall mi,
           In mi test_runners.sample_metrics ->
           test_runners.dict_get (test_runners.name mi)
             (test_runners.metrics measurement) <> None)
    [(1%Z, None); (2%Z, None)]
    [(1%Z,
      Some {| test_runners.metrics := [("objective", 0); ("cost", -10)] |});
     (2%Z,
      Some {| test_runners.metrics := [("objective", 0); ("cost", -10)] |})].
Proof.
  exact (@batch_completes_every_suggestion
           (Z * Z) Z test_runners.sample_trial nat nat string
           test_runners.sample_uniform test_runners.sample_assert_contains
           (fun t => fst t) test_runners.sample_complete
           (test_runners.sample_runner 3 true)
           [(1%Z, None); (2%Z, None)] 0%nat 4%nat _ eq_refl).
Defined.

Lemma unvalidated_run_returns_witness :
  exists algorithm',
    test_runners.sample_run 3 false (5%nat, []) =
    (inr (snd algorithm'), algorithm').
Proof.
  exact (@unvalidated_run_returns
           (Z * Z) Z test_runners.sample_trial nat nat
           (nat * list test_runners.sample_trial) string
           (fun s => s) test_runners.sample_uniform
           test_runners.sample_assert_contains (fun t => fst t)
           test_runners.sample_complete test_runners.sample_suggest
           test_runners.sample_AddTrials (fun a => snd a)
           (test_runners.sample_runner 3 false) (5%nat, []) eq_refl).
Defined.

Lemma run_stops_without_suggestions_witness :
  test_runners.sample_run 3 true (0%nat, [(7%Z, None)]) =
  (inr [(7%Z, None)], (0%nat, [(7%Z, None)])).
Proof.
  refine (proj2 (@run_stops_without_suggestions
                   (Z * Z) Z test_runners.sample_trial nat nat
                   (nat * list test_runners.sample_trial) string
                   (fun s => s) test_runners.sample_uniform
                   test_runners.sample_assert_contains (fun t => fst t)
                   test_runners.sample_complete test_runners.sample_suggest
                   test_runners.sample_AddTrials (fun a => snd a)
                   (test_runners.sample_runner 3 true)
                   (0%nat, [(7%Z, None)]))
            (0%nat, [(7%Z, None)]) _ eq_refl).
  simpl; lia.
Defined.

Lemma invalid_suggestion_aborts_run_witness :
  test_runners.sample_run 3 true (4%nat, []) =
  (inl "parameter outside the search space", (3%nat, [])).
Proof.
  refine (@invalid_suggestion_aborts_run
            (Z * Z) Z test_runners.sample_trial nat nat
            (nat * list test_runners.sample_trial) string
            (fun s => s) test_runners.sample_uniform
            test_runners.sample_assert_contains (fun t => fst t)
            test_runners.sample_complete test_runners.sample_suggest
            test_runners.sample_AddTrials (fun a => snd a)
            (test_runners.sample_runner 3 true) (4%nat, [])
            [] (4%Z, None) [] "parameter outside the search space"
            (3%nat, []) eq_refl _ eq_refl _ eq_refl).
  - simpl; lia.
  - intros s [].
Defined.

(** Three iterations from a countdown of two: two trials are completed and
    the third call to [suggest] returns nothing. *)
Example sample_run_value :
  test_runners.sample_run 3 false (2%nat, []) =
  (inr
     [(2%Z,
       Some {| test_runners.metrics := [("objective", 0); ("cost", -10)] |});
      (1%Z,
       Some {| test_runners.metrics := [("objective", 0); ("cost", -10)] |})],
   (0%nat,
    [(2%Z,
      Some {| test_runners.metrics := [("objective", 0); ("cost", -10)] |});
     (1%Z,
      Some {| test_runners.metrics := [("objective", 0); ("cost", -10)] |})])).
Proof. reflexivity. Qed.
